(** * GANITE Twins data loader: [ganite/datasets/dataset_twins.py]

    A shallow embedding of [preprocess] and [load] and the properties of
    the pipeline: imputation, feature assembly, synthetic treatment
    assignment, observed outcomes and the train/test division.

    Conventions of the embedding.
    - A numeric cell of the table is a binary64 number (primitive
      [float]); the integer codes of the Twins file are exact in it.
    - A pandas [DataFrame] is the ordered list of its labelled columns.
    - Python exceptions are the [Raise] results of a small error monad.
    - numpy's global random generator is threaded explicitly; the random
      draws, the logistic function, the CSV parser and the download
      helper are members of the interface [Externals]. *)

From Stdlib Require Import String Ascii Floats ZArith QArith Bool Lia.
From Stdlib Require Import Uint63 Field Permutation List.
Import ListNotations.

Set Warnings "-inexact-float".

(* ================================================================== *)
(** ** Python runtime: exceptions, results, slicing *)
(* ================================================================== *)

Module Py.

Inductive exn : Type :=
| KeyError (key : string)
| ValueError
| OverflowError
| FileNotFoundError (path : string)
| OtherError.

Inductive result (A : Type) : Type :=
| Ok (a : A)
| Raise (e : exn).

Arguments Ok {A} a.
Arguments Raise {A} e.

Definition bind {A B : Type} (r : result A) (k : A -> result B) : result B :=
  match r with
  | Ok a => k a
  | Raise e => Raise e
  end.

Fixpoint mapM {A B : Type} (f : A -> result B) (l : list A) : result (list B) :=
  match l with
  | [] => Ok []
  | a :: l' =>
      bind (f a) (fun b => bind (mapM f l') (fun bs => Ok (b :: bs)))
  end.

(** The bound [k] of a slice [a[:k]] or [a[k:]] over a sequence of
    length [n]: a negative bound counts from the end, and every bound is
    clamped to the sequence. *)
Definition slice_bound (k : Z) (n : nat) : nat :=
  if (k <? 0)%Z then Z.to_nat (Z.max 0 (Z.of_nat n + k))
  else Nat.min (Z.to_nat k) n.

(** [a[:k]] *)
Definition slice_to {A : Type} (k : Z) (a : list A) : list A :=
  firstn (slice_bound k (length a)) a.

(** [a[k:]] *)
Definition slice_from {A : Type} (k : Z) (a : list A) : list A :=
  skipn (slice_bound k (length a)) a.

(** [s.replace(pat, "")] for a non-empty [pat]: occurrences are removed
    left to right; [skip] counts the characters of a match still to drop. *)
Fixpoint remove_aux (pat : string) (skip : nat) (s : string) : string :=
  match s with
  | EmptyString => EmptyString
  | String c s' =>
      match skip with
      | S k => remove_aux pat k s'
      | O =>
          if String.prefix pat s
          then remove_aux pat (String.length pat - 1) s'
          else String c (remove_aux pat 0 s')
      end
  end.

Definition remove (pat s : string) : string :=
  match pat with
  | EmptyString => s
  | _ => remove_aux pat 0 s
  end.

End Py.

Import Py.

Declare Scope py_scope.
Notation "x <- e ;; k" := (Py.bind e (fun x => k))
  (at level 61, e at next level, right associativity) : py_scope.
Notation "' pat <- e ;; k" := (Py.bind e (fun x => match x with pat => k end))
  (at level 61, pat pattern, e at next level, right associativity) : py_scope.
Open Scope py_scope.

(* ================================================================== *)
(** ** binary64 arithmetic as Python and numpy use it *)
(* ================================================================== *)

Module F64.

(** [float(n)] for a record count [n] (below 2^63; exact below 2^53). *)
Definition of_nat (n : nat) : float :=
  PrimFloat.of_uint63 (Uint63.of_Z (Z.of_nat n)).

(** [x != x], the NaN test. *)
Definition notna (x : float) : bool := PrimFloat.eqb x x.

(** Python's [int(f)]: truncation toward zero; [ValueError] on NaN and
    [OverflowError] on an infinity. *)
Definition to_int (f : float) : result Z :=
  match Prim2SF f with
  | S754_zero _ => Ok 0%Z
  | S754_finite s m e => Ok (SpecFloat.cond_Zopp s (Z.shiftl (Zpos m) e))
  | S754_infinity _ => Raise OverflowError
  | S754_nan => Raise ValueError
  end.

(** [math.floor(f)]: the largest integer below or equal to [f]. *)
Definition floor (f : float) : result Z :=
  match Prim2SF f with
  | S754_zero _ => Ok 0%Z
  | S754_finite s m e => Ok (Z.shiftl (SpecFloat.cond_Zopp s (Zpos m)) e)
  | S754_infinity _ => Raise OverflowError
  | S754_nan => Raise ValueError
  end.

End F64.

(* ================================================================== *)
(** ** Arithmetic interface of the numeric stages

    The rescaling of the propensities is written once over this
    interface and read at two instances: binary64, which is what numpy
    computes, and the rationals, which is the exact arithmetic the
    "mean 0.5 by construction" argument is made in. *)
(* ================================================================== *)

Class Arith (A : Type) : Type := {
  a_add : A -> A -> A;
  a_mul : A -> A -> A;
  a_div : A -> A -> A;
  a_of_nat : nat -> A;
  a_gtb : A -> A -> bool
}.

#[export] Instance float_arith : Arith float := {|
  a_add := PrimFloat.add;
  a_mul := PrimFloat.mul;
  a_div := PrimFloat.div;
  a_of_nat := F64.of_nat;
  a_gtb := fun x y => PrimFloat.ltb y x
|}.

#[export] Instance exact_arith : Arith Q := {|
  a_add := Qplus;
  a_mul := Qmult;
  a_div := Qdiv;
  a_of_nat := fun n => inject_Z (Z.of_nat n);
  a_gtb := fun x y => negb (Qle_bool x y)
|}.

Module Np.
Section Generic.
Context {A : Type} `{Arith A}.

(** The elements added up one after the other, from zero. *)
Definition sum_seq (l : list A) : A := fold_left a_add l (a_of_nat 0).

(** The unrolled loop of numpy's [pairwise_sum] for 8 to 128 addends:
    eight running sums take the addends eight at a time; they are then
    added up as [((r0+r1)+(r2+r3))+((r4+r5)+(r6+r7))], and the addends
    left over (fewer than eight) are added one after the other. *)
Fixpoint unrolled (r0 r1 r2 r3 r4 r5 r6 r7 : A) (l : list A) : A :=
  match l with
  | a0 :: a1 :: a2 :: a3 :: a4 :: a5 :: a6 :: a7 :: l' =>
      unrolled (a_add r0 a0) (a_add r1 a1) (a_add r2 a2) (a_add r3 a3)
               (a_add r4 a4) (a_add r5 a5) (a_add r6 a6) (a_add r7 a7) l'
  | _ =>
      fold_left a_add l
        (a_add (a_add (a_add r0 r1) (a_add r2 r3))
               (a_add (a_add r4 r5) (a_add r6 r7)))
  end.

(** [pairwise_sum] on at most 128 addends: fewer than eight are added
    one after the other from zero. *)
Definition block_sum (l : list A) : A :=
  match l with
  | a0 :: a1 :: a2 :: a3 :: a4 :: a5 :: a6 :: a7 :: l' =>
      unrolled a0 a1 a2 a3 a4 a5 a6 a7 l'
  | _ => sum_seq l
  end.

(** Where [pairwise_sum] cuts more than 128 addends: at half their
    number, rounded down to a multiple of eight. *)
Definition cut (n : nat) : nat := n / 2 - (n / 2) mod 8.

(** [pairwise_sum]: more than 128 addends are cut in two and the sums
    of the halves added. The recursion is on [fuel], which the length
    of the list always covers. *)
Fixpoint pairwise (fuel : nat) (l : list A) : A :=
  match fuel with
  | O => block_sum l
  | S fuel' =>
      if length l <=? 128 then block_sum l
      else a_add (pairwise fuel' (firstn (cut (length l)) l))
                 (pairwise fuel' (skipn (cut (length l)) l))
  end.

(** [np.sum] of a contiguous array: the reduction starts from the
    identity 0 and adds the pairwise sum of the elements. *)
Definition sum (l : list A) : A :=
  a_add (a_of_nat 0) (pairwise (length l) l).

(** [np.mean(a)] *)
Definition mean (l : list A) : A := a_div (sum l) (a_of_nat (length l)).

(** A row of [np.matmul(x, coef)]. numpy leaves the order of the
    additions to the BLAS it is linked with; the products are added one
    after the other here. *)
Definition dot (row coef : list A) : A :=
  sum_seq (map (fun p => a_mul (fst p) (snd p)) (combine row coef)).

(** [np.matmul(x, coef)] for [x] of shape (no, dim) and [coef] of
    shape (dim, 1). *)
Definition matmul (x : list (list A)) (coef : list A) : list A :=
  map (fun row => dot row coef) x.

(** Elementwise [a + b]. *)
Definition vadd (a b : list A) : list A :=
  map (fun p => a_add (fst p) (snd p)) (combine a b).
End Generic.

(** [a[idx]] and [a[idx, :]] for an index array [idx]. *)
Definition take {B : Type} (d : B) (idx : list nat) (a : list B) : list B :=
  map (fun i => nth i a d) idx.

End Np.

(* ================================================================== *)
(** ** pandas: frames, [mode], [mean], [get_dummies] *)
(* ================================================================== *)

Module Pd.

(** A column label. [get_dummies] names an indicator column
    [prefix_value]; the label keeps the two parts apart. *)
Inductive label : Type :=
| Col (name : string)
| Indicator (prefix : string) (value : float).

(** A column is an array of dtype float64; a frame is the ordered list
    of its labelled columns. *)
Definition Series : Type := list float.
Definition DataFrame : Type := list (label * Series).

Definition label_eqb (a b : label) : bool :=
  match a, b with
  | Col s, Col s' => String.eqb s s'
  | Indicator p v, Indicator p' v' => String.eqb p p' && PrimFloat.eqb v v'
  | _, _ => false
  end.

(** [df[name]] on a frame whose labels are distinct, which is what
    [wf_frame] asks and what the parser is taken to deliver: [KeyError]
    when no column has the label. For a label that occurs twice pandas
    hands back a frame, not a column, and line 98 then raises; such
    frames are outside the statements that say a stage returns. *)
Fixpoint getitem (name : string) (df : DataFrame) : result Series :=
  match df with
  | [] => Raise (KeyError name)
  | (l, c) :: df' =>
      if label_eqb l (Col name) then Ok c else getitem name df'
  end.

(** [df.columns.get_loc(name)]: the position of a column. *)
Fixpoint get_loc (name : string) (df : DataFrame) : option nat :=
  match df with
  | [] => None
  | (l, _) :: df' =>
      if label_eqb l (Col name) then Some O
      else option_map S (get_loc name df')
  end.

(** [df[name] = c] for a column that exists: it is replaced in place. *)
Fixpoint setitem (name : string) (c : Series) (df : DataFrame) : DataFrame :=
  match df with
  | [] => [(Col name, c)]
  | (l, c0) :: df' =>
      if label_eqb l (Col name) then (l, c) :: df'
      else (l, c0) :: setitem name c df'
  end.

(** [df[names]] for a list of names. *)
Definition select (names : list string) (df : DataFrame) : result DataFrame :=
  mapM (fun n => c <- getitem n df ;; Ok (Col n, c)) names.

(** [len(df.index)] *)
Definition nrows (df : DataFrame) : nat :=
  match df with
  | [] => 0
  | (_, c) :: _ => length c
  end.

(** [df.values]: the rows of the frame. *)
Definition row (i : nat) (df : DataFrame) : list float :=
  map (fun lc => nth i (snd lc) PrimFloat.nan) df.

Definition values (df : DataFrame) : list (list float) :=
  map (fun i => row i df) (seq 0 (nrows df)).

(** [df.values.shape] *)
Definition shape (df : DataFrame) : nat * nat := (nrows df, length df).

(** [df.columns] *)
Definition columns (df : DataFrame) : list label := map fst df.

(** A frame holds uniquely labelled columns of one length. *)
Definition wf_frame (df : DataFrame) : Prop :=
  NoDup (columns df) /\ Forall (fun lc => length (snd lc) = nrows df) df.

(** [s.dropna()] *)
Definition dropna (s : Series) : Series := filter F64.notna s.

(** Occurrences of [v] in [s]. *)
Definition count (v : float) (s : Series) : nat :=
  length (filter (PrimFloat.eqb v) s).

(** One step of the scan for the mode: [v] replaces the best value so
    far when it occurs more often, or as often and is smaller. *)
Definition mode_step (s : Series) (best : option float) (v : float)
  : option float :=
  match best with
  | None => Some v
  | Some b =>
      if (count b s <? count v s)%nat
         || ((count v s =? count b s)%nat && PrimFloat.ltb v b)
      then Some v else Some b
  end.

(** [s.mode()[0]]: the smallest of the most frequent non-NaN values;
    [KeyError] when there is none. *)
Definition mode0 (s : Series) : result float :=
  match fold_left (mode_step s) (dropna s) None with
  | Some m => Ok m
  | None => Raise (KeyError "0")
  end.

(** [s.fillna(0)] *)
Definition fillna0 (s : Series) : Series :=
  map (fun x => if F64.notna x then x else 0%float) s.

(** [s.mean()], pandas' [nanmean]: the NaN entries are set to 0 where
    they stand, the column is summed by [np.sum], and the sum is divided
    by the number of entries that are not NaN; NaN when there is none. *)
Definition mean (s : Series) : float :=
  let count := length (dropna s) in
  if (count =? 0)%nat then PrimFloat.nan
  else PrimFloat.div (Np.sum (fillna0 s)) (F64.of_nat count).

(** Insertion of a level in the sorted list of distinct levels. *)
Fixpoint insert_level (v : float) (ls : list float) : list float :=
  match ls with
  | [] => [v]
  | w :: ls' =>
      if PrimFloat.eqb v w then ls
      else if PrimFloat.ltb v w then v :: ls
      else w :: insert_level v ls'
  end.

(** The distinct non-NaN values of a column, ascending. *)
Definition levels (s : Series) : list float :=
  fold_right insert_level [] (dropna s).

(** [pd.get_dummies(s, prefix=prefix)]: one indicator column per level. *)
Definition get_dummies (prefix : string) (s : Series) : DataFrame :=
  map (fun v =>
         (Indicator prefix v,
          map (fun x => if PrimFloat.eqb x v then 1%float else 0%float) s))
      (levels s).

(** [pd.concat([a, b], axis=1)] for frames over the same index. *)
Definition concat_columns (a b : DataFrame) : DataFrame := a ++ b.

End Pd.

Import Pd.

(* ================================================================== *)
(** ** External collaborators of the module *)
(* ================================================================== *)

(** The files of the machine: the bytes stored under a path, if any. *)
Definition FileSystem : Type := string -> option string.

(** What the module imports and does not define: numpy's generator
    ([np.random.seed], [uniform], [normal], [binomial], [permutation]),
    scipy's [expit], the parser behind [pd.read_csv], and the helper
    [download_if_needed] of [ganite.datasets.network]. The generator
    state is passed in and returned; a draw that numpy refuses (a
    probability that is NaN or outside [0, 1]) is a [Raise]. *)
Class Externals : Type := {
  rng : Type;
  seed : Z -> rng;
  uniform : float -> float -> nat -> rng -> list float * rng;
  normal : float -> float -> nat -> rng -> list float * rng;
  binomial : Z -> list float -> rng -> result (list Z * rng);
  permutation : nat -> rng -> list nat * rng;
  expit : float -> float;
  parse_csv : string -> result DataFrame;
  download_if_needed : string -> string -> FileSystem -> result FileSystem
}.

(* ================================================================== *)
(** ** The module [dataset_twins] *)
(* ================================================================== *)

Module Twins.

Local Open Scope string_scope.

Definition DATASET : string := "Twin_Data.csv.gz".
Definition URL : string :=
  "https://bitbucket.org/mvdschaar/mlforhealthlabpub/raw/0b0190bcd38a76c405c805f1ca774971fcd85233/data/twins/Twin_Data.csv.gz".

Definition label_list : list string := ["outcome(t=0)"; "outcome(t=1)"].

Definition medrisk_list : list string :=
  ["anemia"; "cardiac"; "lung"; "diabetes"; "herpes"; "hydra"; "hemo";
   "chyper"; "phyper"; "eclamp"; "incervix"; "pre4000"; "dtotord";
   "preterm"; "renal"; "rh"; "uterine"; "othermr"].

Definition other_list : list string :=
  ["cigar"; "drink"; "wtgain"; "gestat"; "dmeduc"; "nprevist"].

Definition other_list2 : list string := ["pldel"; "resstatb"].

Definition bin_list : list string := "dmar" :: medrisk_list.
Definition con_list : list string := ["dmage"; "mpcb"] ++ other_list.
Definition cat_list : list string := "adequacy" :: other_list2.

Local Open Scope float_scope.

(** The six arrays [preprocess] returns. *)
Record outputs : Type := {
  train_x : list (list float);
  train_t : list Z;
  train_y : list Z;
  train_potential_y : list (list Z);
  test_x : list (list float);
  test_potential_y : list (list Z)
}.

(** *** Loader (lines 57-62) *)

(** [col.replace("'", "").replace("’", "")] on a column name. *)
Definition clean_name (col : string) : string :=
  Py.remove "’" (Py.remove "'" col).

Definition clean_label (l : label) : label :=
  match l with
  | Col s => Col (clean_name s)
  | Indicator p v => Indicator p v
  end.

(** [df.columns = columns] *)
Definition rename_columns (df : DataFrame) : DataFrame :=
  map (fun lc => (clean_label (fst lc), snd lc)) df.

(** [pd.read_csv(fn_csv)] *)
Definition read_csv {E : Externals} (fn_csv : string) (fs : FileSystem)
  : result DataFrame :=
  match fs fn_csv with
  | Some bytes => parse_csv bytes
  | None => Raise (FileNotFoundError fn_csv)
  end.

(** *** Imputation (lines 97-101) *)

(** [x in [8, 9]] *)
Definition in_8_9 (x : float) : bool := (x =? 8) || (x =? 9).

(** [df[feat].apply(lambda x: df[feat].mode()[0] if x in [8, 9] else x)]:
    the lambda reads the column as it was before the assignment. *)
Definition impute_mode (s : Series) : result Series :=
  mapM (fun x => if in_8_9 x then mode0 s else Ok x) s.

Definition impute_medrisk (feat : string) (df : DataFrame)
  : result DataFrame :=
  s <- getitem feat df ;;
  s' <- impute_mode s ;;
  Ok (setitem feat s' df).

(** [df.loc[df[feat] == 99, feat] = df.loc[df[feat] != 99, feat].mean()] *)
Definition impute_mean (s : Series) : Series :=
  let m := Pd.mean (filter (fun x => negb (x =? 99)) s) in
  map (fun x => if x =? 99 then m else x) s.

Definition impute_other (feat : string) (df : DataFrame)
  : result DataFrame :=
  s <- getitem feat df ;;
  Ok (setitem feat (impute_mean s) df).

(** A [for feat in feats] loop over the frame. *)
Fixpoint for_each (body : string -> DataFrame -> result DataFrame)
  (feats : list string) (df : DataFrame) : result DataFrame :=
  match feats with
  | [] => Ok df
  | feat :: feats' => df' <- body feat df ;; for_each body feats' df'
  end.

Definition impute (df : DataFrame) : result DataFrame :=
  df1 <- for_each impute_medrisk medrisk_list df ;;
  for_each impute_other other_list df1.

(** *** Feature builder (lines 103-106) *)

Definition add_dummies (df : DataFrame) (feat : string) (df_new : DataFrame)
  : result DataFrame :=
  s <- getitem feat df ;;
  Ok (concat_columns df_new (get_dummies feat s)).

Definition build_features (df : DataFrame) : result DataFrame :=
  df_new <- select (con_list ++ bin_list) df ;;
  for_each (add_dummies df) cat_list df_new.

(** *** Potential outcomes (lines 113-115) *)

(** [np.array(potential_y < 9999, dtype=int)] on one entry. *)
Definition binarize (v : float) : Z := if v <? 9999 then 1%Z else 0%Z.

Definition potential_outcomes (df : DataFrame) : result (list (list Z)) :=
  labels <- select label_list df ;;
  Ok (map (map binarize) (values labels)).

(** *** Treatment assignment (lines 118-129) *)

(** [prob_temp / (2 * np.mean(prob_temp))] *)
Definition rescale {A : Type} `{Arith A} (prob_temp : list A) : list A :=
  let m := Np.mean prob_temp in
  map (fun p => a_div p (a_mul (a_of_nat 2) m)) prob_temp.

(** [prob_t[prob_t > 1] = 1] *)
Definition clip {A : Type} `{Arith A} (prob_t : list A) : list A :=
  map (fun p => if a_gtb p (a_of_nat 1) then a_of_nat 1 else p) prob_t.

(** The raw propensities [expit(x . coef + noise)]. *)
Definition propensity {E : Externals} (x : list (list float))
  (coef noise : list float) : list float :=
  map expit (Np.vadd (Np.matmul x coef) noise).

Definition assign_treatment {E : Externals} (x : list (list float))
  (no dim : nat) (g : rng) : result (list Z * rng) :=
  let '(coef, g1) := uniform (-0.01) 0.01 dim g in
  let '(noise, g2) := normal 0 0.01 no g1 in
  let prob_temp := propensity x coef noise in
  let prob_t := clip (rescale prob_temp) in
  binomial 1 prob_t g2.

(** *** Observed outcomes (lines 132-139) *)

(** [t * potential_y[:, 1] + (1 - t) * potential_y[:, 0]] *)
Definition observe (t : list Z) (potential_y : list (list Z)) : list Z :=
  map (fun p =>
         let '(ti, py) := p in
         (ti * nth 1 py 0 + (1 - ti) * nth 0 py 0)%Z)
      (combine t potential_y).

(** *** Train/test division (lines 142-152) *)

(** [int(train_rate * no)] *)
Definition train_size (train_rate : float) (no : nat) : result Z :=
  F64.to_int (train_rate * F64.of_nat no).

Definition train_test_division (train_rate : float) (no : nat)
  (idx : list nat) : result (list nat * list nat) :=
  k <- train_size train_rate no ;;
  k' <- train_size train_rate no ;;
  Ok (Py.slice_to k idx, Py.slice_from k' idx).

(** Everything [preprocess] holds when it reaches the division. *)
Record synthesized : Type := {
  s_x : list (list float);
  s_no : nat;
  s_dim : nat;
  s_potential_y : list (list Z);
  s_t : list Z;
  s_y : list Z
}.

(** Lines 108-139, given the imputed frame [df] and the one-hot frame
    [df_new] of the feature builder. *)
Definition synthesize {E : Externals} (df df_new : DataFrame) (g : rng)
  : result (synthesized * rng) :=
  let x := values df in
  let '(no, dim) := shape df in
  potential_y <- potential_outcomes df ;;
  '(t, g') <- assign_treatment x no dim g ;;
  let y := observe t potential_y in
  Ok ({| s_x := x; s_no := no; s_dim := dim;
         s_potential_y := potential_y; s_t := t; s_y := y |}, g').

(** Lines 141-154. *)
Definition divide {E : Externals} (train_rate : float) (s : synthesized)
  (g : rng) : result (outputs * rng) :=
  let '(idx, g') := permutation (s_no s) g in
  '(train_idx, test_idx) <- train_test_division train_rate (s_no s) idx ;;
  Ok ({| train_x := Np.take [] train_idx (s_x s);
         train_t := Np.take 0%Z train_idx (s_t s);
         train_y := Np.take 0%Z train_idx (s_y s);
         train_potential_y := Np.take [] train_idx (s_potential_y s);
         test_x := Np.take [] test_idx (s_x s);
         test_potential_y := Np.take [] test_idx (s_potential_y s) |}, g').

(** Lines 57-139: the frame is loaded, imputed and turned into features,
    outcomes and treatments. *)
Definition prepare {E : Externals} (fn_csv : string) (fs : FileSystem)
  (g : rng) : result (synthesized * rng) :=
  df0 <- read_csv fn_csv fs ;;
  let df1 := rename_columns df0 in
  df <- impute df1 ;;
  df_new <- build_features df ;;
  synthesize df df_new g.

Definition preprocess {E : Externals} (fn_csv : string) (train_rate : float)
  (fs : FileSystem) (g : rng) : result (outputs * rng) :=
  '(s, g') <- prepare fn_csv fs g ;;
  divide train_rate s g'.

(** *** [load] (lines 157-170) *)

(** A [pathlib] path: whether it starts at the root, and its parts.
    [Path(".")] has no part. *)
Record Path : Type := { absolute : bool; parts : list string }.

(** [data_path / name] for a relative name of one part, which [DATASET]
    is: the part is added at the end. *)
Definition joinpath (dir : Path) (name : string) : Path :=
  {| absolute := absolute dir; parts := parts dir ++ [name] |}.

(** [os.fspath(p)]: the string under which the download helper and
    [pd.read_csv] open the path. *)
Definition fspath (p : Path) : string :=
  match absolute p, parts p with
  | false, [] => "."
  | false, ps => String.concat "/" ps
  | true, ps => String.append "/" (String.concat "/" ps)
  end.

Definition load {E : Externals} (data_path : Path) (train_split : float)
  (fs : FileSystem) (g : rng) : result (outputs * rng) :=
  let csv := joinpath data_path DATASET in
  fs' <- download_if_needed (fspath csv) URL fs ;;
  preprocess (fspath csv) train_split fs' g.

(** The generator as the import of the module leaves it:
    [np.random.seed(0)]. *)
Definition module_rng {E : Externals} : rng := seed 0.

End Twins.

Import Twins.

(* ================================================================== *)
(** ** What the collaborators guarantee *)
(* ================================================================== *)

Class ExternalsSpec (E : Externals) : Prop := {
  (** [normal(loc, scale, size=[n, 1])] has [n] entries. *)
  normal_length : forall loc scale n g,
    length (fst (normal loc scale n g)) = n;
  (** [binomial(1, p, [n, 1])] draws one value of {0, 1} per entry. *)
  binomial_draws : forall p g t g',
    binomial 1 p g = Ok (t, g') ->
    length t = length p /\ Forall (fun v => v = 0%Z \/ v = 1%Z) t;
  (** [permutation(n)] is a permutation of [0, n). *)
  permutation_perm : forall n g,
    Permutation (fst (permutation n g)) (seq 0 n);
  (** The parser builds a frame, and the header of a file that is read
      has names that stay distinct once the quotes are stripped. *)
  parse_csv_wf : forall bytes df,
    parse_csv bytes = Ok df -> wf_frame (rename_columns df)
}.

(* ================================================================== *)
(** ** A four-record fixture and a test double for the collaborators *)
(* ================================================================== *)

Module Fixture.

Local Open Scope string_scope.
Local Open Scope float_scope.

(** The frame as the parser returns it: the column names still carry the
    stray quotes of the file's header. *)
Definition raw : DataFrame :=
  [ (Col "'adequacy'", [1; 2; 3; 1]);
    (Col "'anemia'", [8; 8; 0; 1]);
    (Col "'cardiac'", [0; 9; 0; 1]);
    (Col "'lung'", [0; 0; 0; 0]);
    (Col "'diabetes'", [1; 8; 1; 9]);
    (Col "'herpes'", [8; 9; 0; 1]);
    (Col "'hydra'", [0; 0; 0; 0]);
    (Col "'hemo'", [0; 0; 0; 0]);
    (Col "'chyper'", [0; 0; 1; 0]);
    (Col "'phyper'", [0; 0; 0; 0]);
    (Col "'eclamp'", [0; 0; 0; 0]);
    (Col "'incervix'", [0; 0; 0; 0]);
    (Col "'pre4000'", [0; 0; 0; 0]);
    (Col "'dtotord'", [1; 2; 3; 2]);
    (Col "'preterm'", [0; 1; 0; 0]);
    (Col "'renal'", [0; 0; 0; 0]);
    (Col "'rh'", [0; 0; 0; 0]);
    (Col "'uterine'", [0; 0; 0; 0]);
    (Col "'othermr'", [0; 0; 0; 0]);
    (Col "'cigar'", [98; 100; 99; 99]);
    (Col "'drink'", [0; 99; 2; 4]);
    (Col "'wtgain'", [20; 30; 99; 40]);
    (Col "'gestat'", [38; 39; 40; 37]);
    (Col "'dmeduc'", [12; 16; 99; 14]);
    (Col "'nprevist'", [10; 12; 9; 99]);
    (Col "'dmage'", [30; 25; 41; 33]);
    (Col "'mpcb'", [1; 2; 1; 3]);
    (Col "'dmar'", [1; 0; 1; 1]);
    (Col "'pldel'", [1; 1; 2; 1]);
    (Col "'resstatb'", [1; 1; 1; 1]);
    (Col "outcome(t=0)", [9999; 120; 9999; 9999]);
    (Col "outcome(t=1)", [9999; 9999; 30; 9999]) ].

(** The frame after the loader has cleaned the column names. *)
Definition table : DataFrame := rename_columns raw.

(** The frame the imputer makes of it. *)
Definition imputed : DataFrame :=
  match impute table with
  | Ok df => df
  | Raise _ => []
  end.

(** A state of [preprocess] at the division: the features of the imputed
    fixture, with [no] as given. *)
Definition synth (no : nat) : synthesized :=
  {| s_x := values imputed; s_no := no; s_dim := 32;
     s_potential_y := [[0; 0]; [1; 0]; [0; 1]; [0; 0]]%Z;
     s_t := [0; 1; 1; 0]%Z; s_y := [0; 0; 1; 0]%Z |}.

Definition path : string := "data/Twin_Data.csv.gz".
Definition bytes : string := "twins-fixture".

(** A machine that holds the fixture under [path] and nothing else. *)
Definition disk : FileSystem :=
  fun p => if String.eqb p path then Some bytes else None.

Definition valid_probability (p : float) : bool := (0 <=? p) && (p <=? 1).

(** A deterministic stand-in for the collaborators: the generator state
    counts the calls, the draws are fixed functions of their arguments,
    and [expit] is a two-valued step. *)
#[export] Instance double : Externals := {|
  rng := nat;
  seed := fun _ => O;
  uniform := fun low _ n g => (repeat low n, S g);
  normal := fun loc _ n g => (repeat loc n, S g);
  binomial := fun _ p g =>
    if forallb valid_probability p
    then Ok (map (fun q => if 0.5 <=? q then 1%Z else 0%Z) p, S g)
    else Raise ValueError;
  permutation := fun n g => (rev (seq 0 n), S g);
  expit := fun z => if z <? -150 then 0.25 else 0.75;
  parse_csv := fun b =>
    if String.eqb b bytes then Ok raw else Raise OtherError;
  download_if_needed := fun p _ fs =>
    match fs p with
    | Some _ => Ok fs
    | None => Raise OtherError
    end
|}.

End Fixture.

(* ================================================================== *)
(** ** Predicates and helpers of the statements *)
(* ================================================================== *)

Local Open Scope string_scope.
Local Open Scope list_scope.
Local Open Scope nat_scope.

(** Frames whose columns all have [n] entries. *)
Definition all_length (n : nat) (df : DataFrame) : Prop :=
  Forall (fun lc => length (snd lc) = n) df.

(** Both loop bodies read one column, compute its replacement and write
    it back. *)
Definition column_update (f : Series -> result Series) (feat : string)
  (df : DataFrame) : result DataFrame :=
  s <- getitem feat df ;; s' <- f s ;; Ok (setitem feat s' df).

(** Distinctness of a list of names, decided. *)
Fixpoint distinct (l : list string) : bool :=
  match l with
  | [] => true
  | a :: l' => negb (existsb (String.eqb a) l') && distinct l'
  end.

(** No sentinel is left in a frame: no 8 or 9 in a medical-risk column
    and no 99 in a continuous column. *)
Definition sentinel_free (df : DataFrame) : Prop :=
  (forall feat s, In feat medrisk_list -> getitem feat df = Ok s ->
     Forall (fun v => in_8_9 v = false) s) /\
  (forall feat s, In feat other_list -> getitem feat df = Ok s ->
     Forall (fun v => PrimFloat.eqb v 99 = false) s).

(** An entry that is 0 or 1. *)
Definition bit (v : Z) : Prop := v = 0%Z \/ v = 1%Z.

(** The observed outcome of one record, from its treatment and its two
    potential outcomes. *)
Definition observed (t : Z) (py : list Z) : Z :=
  (t * nth 1 py 0 + (1 - t) * nth 0 py 0)%Z.

(** What [synthesize] holds when it returns. *)
Record synthesized_ok (df : DataFrame) (s : synthesized) : Prop := {
  ok_x : s_x s = values df;
  ok_no : s_no s = nrows df;
  ok_dim : s_dim s = length df;
  ok_potential_y :
    exists c0 c1,
      getitem "outcome(t=0)" df = Ok c0 /\
      getitem "outcome(t=1)" df = Ok c1 /\
      s_potential_y s =
        map (fun i => [binarize (nth i c0 PrimFloat.nan);
                       binarize (nth i c1 PrimFloat.nan)])
            (seq 0 (nrows df));
  ok_t_length : length (s_t s) = nrows df;
  ok_t_bits : Forall bit (s_t s);
  ok_y : s_y s = observe (s_t s) (s_potential_y s)
}.

(* ================================================================== *)
(** * Properties *)
(* ================================================================== *)

(** ** The definitions on small inputs *)

Example clean_name_quotes : clean_name "'dm’age'" = "dmage"%string.
Proof. reflexivity. Qed.

Example mode0_most_frequent : mode0 [8; 8; 0; 1]%float = Ok 8%float.
Proof. reflexivity. Qed.

Example mode0_tie_smallest : mode0 [8; 9; 0; 1]%float = Ok 0%float.
Proof. reflexivity. Qed.

Example mode0_skips_nan :
  mode0 [PrimFloat.nan; 2; PrimFloat.nan]%float = Ok 2%float.
Proof. reflexivity. Qed.

Example mode0_of_nothing :
  mode0 [PrimFloat.nan] = Raise (KeyError "0").
Proof. reflexivity. Qed.

Example mean_skips_nan :
  Pd.mean [98; PrimFloat.nan; 100]%float = 99%float.
Proof. reflexivity. Qed.

Example mean_of_nothing : F64.notna (Pd.mean []) = false.
Proof. reflexivity. Qed.

Example impute_mean_nprevist :
  impute_mean [10; 12; 9; 99]%float
  = [10; 12; 9; 0x1.4aaaaaaaaaaabp+3]%float.
Proof. reflexivity. Qed.

Example levels_sorted : levels [3; 1; 2; 1]%float = [1; 2; 3]%float.
Proof. reflexivity. Qed.

Example slice_negative : Py.slice_to (-1) [2; 0; 1]%nat = [2; 0]%nat.
Proof. reflexivity. Qed.

Example slice_beyond : Py.slice_from 7 [2; 0; 1]%nat = [].
Proof. reflexivity. Qed.

Example to_int_truncates : F64.to_int (-2.5) = Ok (-2)%Z.
Proof. reflexivity. Qed.

Example floor_rounds_down : F64.floor (-2.5) = Ok (-3)%Z.
Proof. reflexivity. Qed.

Example to_int_nan : F64.to_int PrimFloat.nan = Raise ValueError.
Proof. reflexivity. Qed.

Example train_size_default : train_size 0.8 10 = Ok 8%Z.
Proof. reflexivity. Qed.

(** The product is rounded before it is truncated: 0.29 * 100 is
    28.999999999999996 in binary64. *)
Example train_size_rounding : train_size 0.29 100 = Ok 28%Z.
Proof. reflexivity. Qed.

Example missing_file :
  preprocess (E := Fixture.double) "nowhere.csv.gz" 0.8 Fixture.disk O
  = Raise (FileNotFoundError "nowhere.csv.gz").
Proof. reflexivity. Qed.

(** [Path(".") / DATASET] is the bare file name. *)
Example dataset_in_current_directory :
  fspath (joinpath {| absolute := false; parts := [] |} DATASET)
  = "Twin_Data.csv.gz"%string.
Proof. reflexivity. Qed.

Example dataset_in_data_directory :
  fspath (joinpath {| absolute := false; parts := ["data"%string] |} DATASET)
  = Fixture.path.
Proof. reflexivity. Qed.

Example dataset_under_root :
  fspath (joinpath {| absolute := true; parts := ["srv"%string] |} DATASET)
  = "/srv/Twin_Data.csv.gz"%string.
Proof. reflexivity. Qed.

Example load_reads_the_dataset :
  load (E := Fixture.double) {| absolute := false; parts := ["data"%string] |}
       0.8 Fixture.disk O
  = preprocess (E := Fixture.double) Fixture.path 0.8 Fixture.disk O.
Proof. vm_compute. reflexivity. Qed.

Example load_without_the_file :
  load (E := Fixture.double) {| absolute := false; parts := [] |}
       0.8 Fixture.disk O
  = Raise OtherError.
Proof. reflexivity. Qed.

(** [np.sum] adds ten addends pairwise, not one after the other. *)
Example sum_pairwise : Np.sum (repeat 0.1%float 10) = 1%float.
Proof. reflexivity. Qed.

Example sum_seq_left_to_right :
  Np.sum_seq (repeat 0.1%float 10) = 0x1.fffffffffffffp-1%float.
Proof. reflexivity. Qed.

Example missing_column :
  impute [(Col "anemia", [0; 8]%float)] = Raise (KeyError "cardiac").
Proof. reflexivity. Qed.

(** ** The error monad *)

Lemma bind_Ok_inv {A B : Type} (r : result A) (k : A -> result B) (b : B) :
  Py.bind r k = Ok b -> exists a, r = Ok a /\ k a = Ok b.
Proof.
  destruct r as [a|e]; simpl; intros Hb; [exists a; auto | discriminate].
Qed.

(** Unpacks one [x <- e ;; k] of a hypothesis [H : _ = Ok _]. *)
Ltac bind_inv H :=
  let a := fresh "a" in
  let Ha := fresh "Ha" in
  apply bind_Ok_inv in H; destruct H as (a & Ha & H).

Lemma mapM_Ok_Forall2 {A B : Type} (f : A -> result B) (l : list A)
  (l' : list B) :
  mapM f l = Ok l' <-> Forall2 (fun a b => f a = Ok b) l l'.
Proof.
  revert l'; induction l as [|a l IH]; intros l'; simpl.
  - split; intros Hm.
    + injection Hm as <-. constructor.
    + inversion Hm. reflexivity.
  - split; intros Hm.
    + bind_inv Hm. bind_inv Hm. injection Hm as <-.
      constructor; [assumption | now apply IH].
    + inversion Hm as [|? b ? bs Hab Hrest]; subst.
      rewrite Hab. simpl. apply IH in Hrest. rewrite Hrest. reflexivity.
Qed.

(** ** binary64 comparisons *)

(** Whatever compares equal to something is not NaN. *)
Lemma eqb_notna (x y : float) :
  PrimFloat.eqb x y = true -> F64.notna x = true.
Proof.
  unfold F64.notna. rewrite !FloatAxioms.eqb_spec.
  destruct (Prim2SF x) as [s|s| |s m e]; intros Hxy.
  - reflexivity.
  - destruct s; reflexivity.
  - discriminate.
  - unfold SFeqb, SFcompare.
    destruct s; rewrite Z.compare_refl, Pos.compare_cont_refl; reflexivity.
Qed.

(** [<] on binary64 is irreflexive and transitive. *)
Lemma SFltb_irrefl (x : spec_float) : SFltb x x = false.
Proof.
  unfold SFltb, SFcompare.
  destruct x as [s|s| |s m e]; try reflexivity.
  - destruct s; reflexivity.
  - destruct s; rewrite Z.compare_refl, Pos.compare_cont_refl; reflexivity.
Qed.

Ltac cmp_cases :=
  repeat match goal with
  | H : context [Z.compare ?a ?b] |- _ =>
      destruct (Z.compare_spec a b); try discriminate H
  | |- context [Z.compare ?a ?b] =>
      destruct (Z.compare_spec a b)
  | H : context [Pos.compare_cont Eq ?a ?b] |- _ =>
      change (Pos.compare_cont Eq a b) with (Pos.compare a b) in H;
      destruct (Pos.compare_spec a b); try discriminate H
  | |- context [Pos.compare_cont Eq ?a ?b] =>
      change (Pos.compare_cont Eq a b) with (Pos.compare a b);
      destruct (Pos.compare_spec a b)
  end.

Lemma SFltb_trans (x y z : spec_float) :
  SFltb x y = true -> SFltb y z = true -> SFltb x z = true.
Proof.
  unfold SFltb, SFcompare.
  destruct x as [sx|sx| |sx mx ex], y as [sy|sy| |sy my ey],
           z as [sz|sz| |sz mz ez];
    try discriminate;
    try (destruct sx; try discriminate); try (destruct sy; try discriminate);
    try (destruct sz; try discriminate); try reflexivity;
    intros Hxy Hyz; cmp_cases; simpl in *; subst;
    try reflexivity; try discriminate; try lia.
Qed.

Lemma ltb_irrefl (x : float) : PrimFloat.ltb x x = false.
Proof. rewrite FloatAxioms.ltb_spec. apply SFltb_irrefl. Qed.

Lemma ltb_trans (x y z : float) :
  PrimFloat.ltb x y = true -> PrimFloat.ltb y z = true ->
  PrimFloat.ltb x z = true.
Proof. rewrite !FloatAxioms.ltb_spec. apply SFltb_trans. Qed.

(** ** Frames *)

Lemma label_eqb_Col (l : label) (name : string) :
  label_eqb l (Col name) = true <-> l = Col name.
Proof.
  destruct l as [s|p v]; simpl.
  - rewrite String.eqb_eq. split; congruence.
  - split; discriminate.
Qed.

Lemma getitem_setitem_same (name : string) (c : Series) (df : DataFrame) :
  getitem name (setitem name c df) = Ok c.
Proof.
  induction df as [|[l c0] df IH]; simpl.
  - rewrite String.eqb_refl. reflexivity.
  - destruct (label_eqb l (Col name)) eqn:Hl; simpl; rewrite Hl; auto.
Qed.

Lemma getitem_setitem_other (name other : string) (c : Series)
  (df : DataFrame) :
  other <> name -> getitem other (setitem name c df) = getitem other df.
Proof.
  intros Hneq. induction df as [|[l c0] df IH]; simpl.
  - destruct (String.eqb name other) eqn:Heq; [|reflexivity].
    apply String.eqb_eq in Heq. congruence.
  - destruct (label_eqb l (Col name)) eqn:Hl; simpl.
    + apply label_eqb_Col in Hl. subst l. simpl.
      destruct (String.eqb name other) eqn:Heq; [|reflexivity].
      apply String.eqb_eq in Heq. congruence.
    + rewrite IH. reflexivity.
Qed.

Lemma columns_setitem (name : string) (c s : Series) (df : DataFrame) :
  getitem name df = Ok s -> columns (setitem name c df) = columns df.
Proof.
  unfold columns. induction df as [|[l c0] df IH]; simpl; [discriminate|].
  destruct (label_eqb l (Col name)) eqn:Hl; simpl; intros Hg.
  - reflexivity.
  - f_equal. auto.
Qed.

Lemma getitem_length (n : nat) (name : string) (s : Series)
  (df : DataFrame) :
  all_length n df -> getitem name df = Ok s -> length s = n.
Proof.
  induction 1 as [|[l c0] df Hc Hall IH]; simpl; [discriminate|].
  destruct (label_eqb l (Col name)); intros Hg; [|auto].
  injection Hg as <-. exact Hc.
Qed.

Lemma setitem_length (n : nat) (name : string) (c : Series)
  (df : DataFrame) :
  all_length n df -> length c = n -> all_length n (setitem name c df).
Proof.
  intros Hall Hc. induction Hall as [|[l c0] df Hc0 Hall IH]; simpl.
  - constructor; [exact Hc | constructor].
  - destruct (label_eqb l (Col name)); constructor; auto.
Qed.

Lemma all_length_nrows (n : nat) (df : DataFrame) :
  all_length n df -> df <> [] -> nrows df = n.
Proof.
  intros Hall Hne. destruct Hall as [|[l c] df Hc _]; [now elim Hne|exact Hc].
Qed.

Lemma wf_frame_all_length (df : DataFrame) :
  wf_frame df -> all_length (nrows df) df.
Proof. intros [_ Hall]. exact Hall. Qed.

(** ** The column loops of the imputer *)

Lemma impute_medrisk_update :
  impute_medrisk = column_update impute_mode.
Proof. reflexivity. Qed.

Lemma impute_other_update :
  impute_other = column_update (fun s => Ok (impute_mean s)).
Proof. reflexivity. Qed.

(** A loop of column updates over distinct names rewrites each named
    column from its original content and touches nothing else. *)
Lemma for_each_column_update (f : Series -> result Series)
  (feats : list string) :
  NoDup feats ->
  forall df df',
    for_each (column_update f) feats df = Ok df' ->
    (forall feat, In feat feats ->
       exists s s', getitem feat df = Ok s /\ f s = Ok s' /\
                    getitem feat df' = Ok s') /\
    (forall name, ~ In name feats -> getitem name df' = getitem name df) /\
    columns df' = columns df.
Proof.
  induction 1 as [|feat feats Hnotin Hnd IH]; intros df df' Hrun; simpl in Hrun.
  - injection Hrun as <-. repeat split; auto. intros feat [].
  - bind_inv Hrun. rename a into df1.
    unfold column_update in Ha. bind_inv Ha. rename a into s.
    bind_inv Ha. rename a into s'. injection Ha as <-.
    destruct (IH _ _ Hrun) as (Hin & Hout & Hcols).
    repeat split.
    + intros feat' [<-|Hin'].
      * exists s, s'. repeat split; auto.
        rewrite (Hout _ Hnotin). apply getitem_setitem_same.
      * destruct (Hin _ Hin') as (s1 & s1' & Hg & Hf & Hg').
        exists s1, s1'. repeat split; auto.
        rewrite <- Hg. symmetry. apply getitem_setitem_other.
        intros ->. contradiction.
    + intros name Hname. rewrite Hout by (intros Hn; apply Hname; now right).
      apply getitem_setitem_other. intros ->. apply Hname. now left.
    + rewrite Hcols. eapply columns_setitem; eassumption.
Qed.

Lemma distinct_NoDup (l : list string) : distinct l = true -> NoDup l.
Proof.
  induction l as [|a l IH]; simpl; intros Hd; constructor.
  - apply andb_prop in Hd as [Ha _]. intros Hin.
    apply negb_true_iff in Ha.
    assert (existsb (String.eqb a) l = true); [|congruence].
    apply existsb_exists. exists a. split; [assumption|apply String.eqb_refl].
  - apply andb_prop in Hd as [_ Hd]. auto.
Qed.

Lemma imputed_names_NoDup : NoDup (medrisk_list ++ other_list).
Proof. apply distinct_NoDup. reflexivity. Qed.

(** What [impute] does to a frame, column by column. *)
Lemma impute_columns (df df' : DataFrame) :
  impute df = Ok df' ->
  (forall feat, In feat medrisk_list ->
     exists s s', getitem feat df = Ok s /\ impute_mode s = Ok s' /\
                  getitem feat df' = Ok s') /\
  (forall feat, In feat other_list ->
     exists s, getitem feat df = Ok s /\
               getitem feat df' = Ok (impute_mean s)) /\
  (forall name, ~ In name (medrisk_list ++ other_list) ->
     getitem name df' = getitem name df) /\
  columns df' = columns df.
Proof.
  unfold impute. intros Hrun. bind_inv Hrun. rename a into df1.
  pose proof imputed_names_NoDup as Hnd.
  pose proof (NoDup_app_remove_r _ _ Hnd) as Hnd1.
  pose proof (NoDup_app_remove_l _ _ Hnd) as Hnd2.
  rewrite impute_medrisk_update in Ha. rewrite impute_other_update in Hrun.
  destruct (for_each_column_update _ _ Hnd1 _ _ Ha) as (Hin1 & Hout1 & Hc1).
  destruct (for_each_column_update _ _ Hnd2 _ _ Hrun) as (Hin2 & Hout2 & Hc2).
  assert (Hdisj : forall n, In n medrisk_list -> In n other_list -> False).
  { intros n H1 H2. simpl in H1, H2.
    repeat (destruct H1 as [<-|H1];
            [repeat (destruct H2 as [H2|H2]; [discriminate H2|]); exact H2|]).
    exact H1. }
  repeat split.
  - intros feat Hfeat. destruct (Hin1 _ Hfeat) as (s & s' & Hg & Hf & Hg').
    exists s, s'. repeat split; auto.
    rewrite Hout2; [assumption|]. intros Ho. eapply Hdisj; eassumption.
  - intros feat Hfeat. destruct (Hin2 _ Hfeat) as (s & s' & Hg & Hf & Hg').
    injection Hf as <-. exists s. split; [|assumption].
    rewrite <- Hg. symmetry. apply Hout1.
    intros Hm. eapply Hdisj; eassumption.
  - intros name Hname. rewrite Hout2, Hout1; auto.
    + intros Hm. apply Hname. apply in_or_app. now left.
    + intros Ho. apply Hname. apply in_or_app. now right.
  - congruence.
Qed.

(** ** The mode of a column *)

Lemma mode_scan_Some (s l : Series) (b : float) :
  exists m, fold_left (mode_step s) l (Some b) = Some m.
Proof.
  revert b. induction l as [|v l IH]; intros b; simpl.
  - now exists b.
  - destruct ((count b s <? count v s)%nat
              || (count v s =? count b s)%nat && PrimFloat.ltb v b); apply IH.
Qed.

(** [mode()[0]] exists as soon as the column has an entry that is not
    NaN. *)
Lemma mode0_defined (s : Series) (x : float) :
  In x s -> F64.notna x = true -> exists m, mode0 s = Ok m.
Proof.
  intros Hin Hx. unfold mode0.
  assert (Hd : In x (dropna s)) by (apply filter_In; auto).
  destruct (dropna s) as [|v l]; [contradiction|]. simpl.
  destruct (mode_scan_Some s l v) as [m ->]. now exists m.
Qed.

(** The scan keeps a value that occurs at least as often as every value
    it has passed. *)
Lemma mode_scan_max (s l : Series) (b m : float) :
  fold_left (mode_step s) l (Some b) = Some m ->
  (m = b \/ In m l) /\ (count b s <= count m s)%nat /\
  Forall (fun v => (count v s <= count m s)%nat) l.
Proof.
  revert b. induction l as [|v l IH]; intros b; simpl.
  - intros Hm. injection Hm as <-. repeat split; auto.
  - destruct ((count b s <? count v s)%nat
              || (count v s =? count b s)%nat && PrimFloat.ltb v b) eqn:Hc;
      intros Hm; destruct (IH _ Hm) as ([->|Hin] & Hle & Hall).
    + repeat split; auto.
      apply orb_prop in Hc as [Hc|Hc].
      * apply Nat.ltb_lt in Hc. lia.
      * apply andb_prop in Hc as [Hc _]. apply Nat.eqb_eq in Hc. lia.
    + repeat split; auto.
      apply orb_prop in Hc as [Hc|Hc].
      * apply Nat.ltb_lt in Hc. lia.
      * apply andb_prop in Hc as [Hc _]. apply Nat.eqb_eq in Hc. lia.
    + repeat split; auto. constructor; [|assumption].
      apply orb_false_elim in Hc as [Hc _]. apply Nat.ltb_ge in Hc. lia.
    + repeat split; auto. constructor; [|assumption].
      apply orb_false_elim in Hc as [Hc _]. apply Nat.ltb_ge in Hc. lia.
Qed.

(** [mode0] is a mode: an entry of the column that is not NaN and that
    no other such entry outnumbers. *)
Lemma mode0_is_mode (s : Series) (m : float) :
  mode0 s = Ok m ->
  In m s /\ F64.notna m = true /\
  forall v, In v s -> F64.notna v = true -> (count v s <= count m s)%nat.
Proof.
  unfold mode0.
  destruct (fold_left (mode_step s) (dropna s) None) as [m'|] eqn:Hscan;
    [|discriminate].
  intros Hm. injection Hm as <-.
  assert (Hwhole :
    In m' (dropna s) /\
    Forall (fun v => (count v s <= count m' s)%nat) (dropna s)).
  { destruct (dropna s) as [|b l]; [discriminate|]. simpl in Hscan.
    destruct (mode_scan_max _ _ _ _ Hscan) as (Hin & Hle & Hall).
    split.
    - destruct Hin as [->|Hin]; [now left | now right].
    - constructor; assumption. }
  destruct Hwhole as [Hin Hall].
  apply filter_In in Hin as [Hin Hna].
  repeat split; auto.
  intros v Hv Hvna. rewrite Forall_forall in Hall.
  apply Hall. apply filter_In. auto.
Qed.

(** Among the values that occur as often as it, the value the scan keeps
    is the smallest: none of the values passed is below it. *)
Lemma mode_scan_least (s l seen : Series) (b m : float) :
  (forall u, In u seen ->
     (count u s <= count b s)%nat /\
     (count u s = count b s -> PrimFloat.ltb u b = false)) ->
  fold_left (mode_step s) l (Some b) = Some m ->
  forall u, In u (seen ++ l) ->
    (count u s <= count m s)%nat /\
    (count u s = count m s -> PrimFloat.ltb u m = false).
Proof.
  revert seen b. induction l as [|v l IH]; intros seen b Hseen; simpl.
  - intros Hm. injection Hm as <-. rewrite app_nil_r. exact Hseen.
  - intros Hm u Hu.
    replace (seen ++ v :: l) with ((seen ++ [v]) ++ l) in Hu
      by (rewrite <- app_assoc; reflexivity).
    revert u Hu.
    destruct ((count b s <? count v s)%nat
              || (count v s =? count b s)%nat && PrimFloat.ltb v b) eqn:Hc;
      (eapply IH; [|exact Hm]); intros u Hu;
      apply in_app_or in Hu as [Hu|[<-|[]]].
    + destruct (Hseen u Hu) as [Hle Htie].
      apply orb_prop in Hc as [Hc|Hc].
      * apply Nat.ltb_lt in Hc. split; lia.
      * apply andb_prop in Hc as [Heq Hvb]. apply Nat.eqb_eq in Heq.
        split; [lia|]. intros Hcu.
        destruct (PrimFloat.ltb u v) eqn:Huv; [|reflexivity].
        rewrite <- (Htie ltac:(lia)). symmetry.
        eapply ltb_trans; eassumption.
    + split; [lia|]. intros _. apply ltb_irrefl.
    + apply Hseen, Hu.
    + apply orb_false_elim in Hc as [Hlt Hc]. apply Nat.ltb_ge in Hlt.
      split; [lia|]. intros Heq.
      rewrite Heq, Nat.eqb_refl in Hc. exact Hc.
Qed.

(** [mode0] is the first of the modes: no entry of the column occurs
    more often, and none that occurs as often is smaller. *)
Lemma mode0_least (s : Series) (m : float) :
  mode0 s = Ok m ->
  forall v, In v s -> F64.notna v = true ->
    (count v s <= count m s)%nat /\
    (count v s = count m s -> PrimFloat.ltb v m = false).
Proof.
  unfold mode0.
  destruct (fold_left (mode_step s) (dropna s) None) as [m'|] eqn:Hscan;
    [|discriminate].
  intros Hm v Hv Hna. injection Hm as <-.
  assert (Hd : In v (dropna s)) by (apply filter_In; auto).
  destruct (dropna s) as [|b l]; [contradiction|]. simpl in Hscan.
  apply (mode_scan_least s l [b] b m'); [|exact Hscan|exact Hd].
  intros u [<-|[]]. split; [lia|]. intros _. apply ltb_irrefl.
Qed.

Lemma in_8_9_notna (x : float) : in_8_9 x = true -> F64.notna x = true.
Proof.
  unfold in_8_9. intros Hx. apply orb_prop in Hx as [Hx|Hx];
    eapply eqb_notna; eassumption.
Qed.

Lemma mapM_total {A B : Type} (f : A -> result B) (l : list A) :
  (forall a, In a l -> exists b, f a = Ok b) -> exists l', mapM f l = Ok l'.
Proof.
  induction l as [|a l IH]; intros Hf; simpl.
  - now exists [].
  - destruct (Hf a (or_introl eq_refl)) as [b ->].
    destruct IH as [bs ->]; [intros; apply Hf; now right|].
    now exists (b :: bs).
Qed.

(** The lambda of the mode imputation never raises: it asks for the mode
    only at an entry that is 8 or 9, and then the column has a mode. *)
Lemma impute_mode_total (s : Series) : exists s', impute_mode s = Ok s'.
Proof.
  apply mapM_total. intros x Hin.
  destruct (in_8_9 x) eqn:Hx; [|now exists x].
  eapply mode0_defined; [eassumption | now apply in_8_9_notna].
Qed.

Lemma impute_mode_entries (s s' : Series) :
  impute_mode s = Ok s' <->
  Forall2 (fun x x' => if in_8_9 x then mode0 s = Ok x' else x' = x) s s'.
Proof.
  unfold impute_mode. split; intros HF.
  - apply mapM_Ok_Forall2 in HF. eapply Forall2_impl; [|exact HF].
    simpl. intros x x'. destruct (in_8_9 x); congruence.
  - apply mapM_Ok_Forall2. eapply Forall2_impl; [|exact HF].
    simpl. intros x x'. destruct (in_8_9 x); congruence.
Qed.

Lemma impute_mode_scan (r : result float) (m : float) (l l' : Series) :
  Forall2 (fun x x' => if in_8_9 x then r = Ok x' else x' = x) l l' ->
  r = Ok m \/ (forall x, In x l -> in_8_9 x = false) ->
  l' = map (fun x => if in_8_9 x then m else x) l.
Proof.
  induction 1 as [|x x' l l' Hx HF IH]; intros Hr; simpl; [reflexivity|].
  f_equal.
  - destruct (in_8_9 x) eqn:Hs; [|exact Hx].
    destruct Hr as [Hr|Hr]; [congruence|].
    rewrite (Hr x (or_introl eq_refl)) in Hs. discriminate Hs.
  - apply IH. destruct Hr as [Hr|Hr]; [now left|].
    right. intros y Hy. apply Hr. now right.
Qed.

(** The mode imputation writes one value, the mode of the column as it
    was, at every entry that is 8 or 9. *)
Lemma impute_mode_map (s s' : Series) :
  impute_mode s = Ok s' ->
  exists m,
    s' = map (fun x => if in_8_9 x then m else x) s /\
    ((exists x, In x s /\ in_8_9 x = true) -> mode0 s = Ok m).
Proof.
  intros Hm. apply impute_mode_entries in Hm.
  destruct (mode0 s) as [m|e] eqn:Hmode.
  - exists m. split; [|reflexivity].
    eapply impute_mode_scan; [exact Hm | now left].
  - assert (Hnone : forall x, In x s -> in_8_9 x = false).
    { intros x Hx. destruct (in_8_9 x) eqn:Hs; [|reflexivity].
      destruct (mode0_defined s x Hx (in_8_9_notna x Hs)) as [m Hm'].
      congruence. }
    exists PrimFloat.nan. split.
    + eapply impute_mode_scan; [exact Hm | now right].
    + intros (x & Hx & Hs). rewrite (Hnone x Hx) in Hs. discriminate Hs.
Qed.

Lemma Forall2_length_eq {A B : Type} (R : A -> B -> Prop) (l : list A)
  (l' : list B) : Forall2 R l l' -> length l = length l'.
Proof. induction 1; simpl; congruence. Qed.

Lemma impute_mode_length (s s' : Series) :
  impute_mode s = Ok s' -> length s' = length s.
Proof.
  intros Hm. apply impute_mode_entries in Hm.
  symmetry. eapply Forall2_length_eq; eassumption.
Qed.

(** ** Totality and shape of the imputer *)

Lemma for_each_column_update_total (f : Series -> result Series)
  (feats : list string) :
  (forall s, exists s', f s = Ok s') ->
  forall df,
    (forall feat, In feat feats -> exists s, getitem feat df = Ok s) ->
    exists df', for_each (column_update f) feats df = Ok df'.
Proof.
  intros Hf. induction feats as [|feat feats IH]; intros df Hcols; simpl.
  - now exists df.
  - destruct (Hcols feat (or_introl eq_refl)) as [s Hs].
    destruct (Hf s) as [s' Hs'].
    unfold column_update at 1. rewrite Hs. simpl. rewrite Hs'. simpl.
    apply IH. intros feat' Hin.
    destruct (String.eqb feat' feat) eqn:Heq.
    + apply String.eqb_eq in Heq. subst feat'.
      exists s'. apply getitem_setitem_same.
    + apply String.eqb_neq in Heq.
      rewrite getitem_setitem_other by assumption.
      apply Hcols. now right.
Qed.

Lemma for_each_column_update_length (f : Series -> result Series)
  (feats : list string) (n : nat) :
  (forall s s', f s = Ok s' -> length s' = length s) ->
  forall df df',
    all_length n df ->
    for_each (column_update f) feats df = Ok df' ->
    all_length n df'.
Proof.
  intros Hf. induction feats as [|feat feats IH]; intros df df' Hall Hrun;
    simpl in Hrun.
  - now injection Hrun as <-.
  - bind_inv Hrun. unfold column_update in Ha.
    bind_inv Ha. rename a0 into s. bind_inv Ha. rename a0 into s'.
    injection Ha as <-. eapply IH; [|eassumption].
    apply setitem_length; [assumption|].
    rewrite (Hf _ _ Ha1). eapply getitem_length; eassumption.
Qed.

Lemma impute_total (df : DataFrame) :
  (forall feat, In feat (medrisk_list ++ other_list) ->
     exists s, getitem feat df = Ok s) ->
  exists df', impute df = Ok df'.
Proof.
  intros Hcols. unfold impute.
  rewrite impute_medrisk_update, impute_other_update.
  destruct (for_each_column_update_total impute_mode medrisk_list
              impute_mode_total df) as [df1 H1].
  { intros feat Hin. apply Hcols. apply in_or_app. now left. }
  rewrite H1. cbn [Py.bind].
  apply for_each_column_update_total.
  - intros s. now exists (impute_mean s).
  - intros feat Hin.
    destruct (for_each_column_update _ _
                (NoDup_app_remove_r _ _ imputed_names_NoDup) _ _ H1)
      as (_ & Hout & _).
    destruct (in_dec string_dec feat medrisk_list) as [Hm|Hm].
    + destruct (for_each_column_update _ _
                  (NoDup_app_remove_r _ _ imputed_names_NoDup) _ _ H1)
        as (Hin1 & _ & _).
      destruct (Hin1 _ Hm) as (s & s' & _ & _ & Hg). now exists s'.
    + rewrite (Hout _ Hm). apply Hcols. apply in_or_app. now right.
Qed.

Lemma impute_all_length (n : nat) (df df' : DataFrame) :
  all_length n df -> impute df = Ok df' -> all_length n df'.
Proof.
  unfold impute. intros Hall Hrun. bind_inv Hrun.
  rewrite impute_medrisk_update in Ha. rewrite impute_other_update in Hrun.
  eapply for_each_column_update_length; [| |exact Hrun].
  - intros s s' Hs. injection Hs as <-. unfold impute_mean.
    apply length_map.
  - eapply for_each_column_update_length; [| |exact Ha]; [|assumption].
    apply impute_mode_length.
Qed.

Lemma columns_nil (df df' : DataFrame) :
  columns df' = columns df -> df = [] -> df' = [].
Proof.
  intros Hc ->. destruct df'; [reflexivity|discriminate].
Qed.

Lemma impute_wf (df df' : DataFrame) :
  wf_frame df -> impute df = Ok df' ->
  wf_frame df' /\ nrows df' = nrows df.
Proof.
  intros [Hnd Hall] Hrun.
  pose proof (impute_all_length _ _ _ Hall Hrun) as Hall'.
  destruct (impute_columns _ _ Hrun) as (_ & _ & _ & Hcols).
  assert (Hn : nrows df' = nrows df).
  { destruct df' as [|lc' df'].
    - destruct df; [reflexivity|discriminate].
    - apply all_length_nrows; [assumption|discriminate]. }
  split; [|exact Hn]. split.
  - rewrite Hcols. exact Hnd.
  - rewrite Hn. exact Hall'.
Qed.

(* ================================================================== *)
(** ** Imputation (claims C5 and C6) *)
(* ================================================================== *)

Lemma Forall2_right {A B : Type} (R : A -> B -> Prop) (P : B -> Prop)
  (l : list A) (l' : list B) :
  Forall2 R l l' -> (forall a b, In a l -> R a b -> P b) -> Forall P l'.
Proof.
  induction 1 as [|a b l l' Hab HF IH]; intros HP; constructor.
  - apply (HP a b); [now left | assumption].
  - apply IH. intros a' b' Hin. apply HP. now right.
Qed.

(** C6: on a frame whose labels are distinct and that has the 24 imputed
    columns the imputer returns. In a medical-risk column every entry
    that is 8 or 9 becomes one value [m] and the other entries stay; when
    the column has such an entry, [m] is an entry of the original column
    that is not NaN, no value occurs more often in the original column
    (the 8s and 9s count), and no value that occurs as often is smaller.
    In a continuous column every 99 becomes the mean of the entries that
    are not 99: their sum by [np.sum], NaN counting as 0, over the number
    of them that are not NaN, and NaN when there is none. Every other
    column, [pldel] and [resstatb] among them, and the column order are
    as before. *)
Theorem imputer_replaces_sentinels (df : DataFrame) :
  NoDup (columns df) ->
  (forall feat, In feat (medrisk_list ++ other_list) ->
     exists s, getitem feat df = Ok s) ->
  exists df',
    impute df = Ok df' /\
    (forall feat, In feat medrisk_list ->
       exists s m,
         getitem feat df = Ok s /\
         getitem feat df' =
           Ok (map (fun x =>
                      if PrimFloat.eqb x 8 || PrimFloat.eqb x 9 then m else x)
                   s) /\
         ((exists x, In x s /\ PrimFloat.eqb x 8 || PrimFloat.eqb x 9 = true) ->
          In m s /\ PrimFloat.eqb m m = true /\
          forall v, In v s -> PrimFloat.eqb v v = true ->
            length (filter (PrimFloat.eqb v) s)
              <= length (filter (PrimFloat.eqb m) s) /\
            (length (filter (PrimFloat.eqb v) s)
               = length (filter (PrimFloat.eqb m) s) ->
             PrimFloat.ltb v m = false))) /\
    (forall feat, In feat other_list ->
       exists s,
         getitem feat df = Ok s /\
         let kept := filter (fun v => negb (PrimFloat.eqb v 99)) s in
         let n := length (filter (fun v => PrimFloat.eqb v v) kept) in
         let m :=
           if n =? 0 then PrimFloat.nan
           else PrimFloat.div
                  (Np.sum (map (fun v => if PrimFloat.eqb v v then v
                                         else 0%float) kept))
                  (F64.of_nat n) in
         getitem feat df' =
           Ok (map (fun x => if PrimFloat.eqb x 99 then m else x) s)) /\
    (forall name, ~ In name (medrisk_list ++ other_list) ->
       getitem name df' = getitem name df) /\
    (forall name, In name other_list2 ->
       getitem name df' = getitem name df) /\
    columns df' = columns df.
Proof.
  intros _ Hcols. destruct (impute_total df Hcols) as [df' Hrun].
  exists df'. split; [exact Hrun|].
  destruct (impute_columns _ _ Hrun) as (Hmed & Hoth & Hrest & Hc).
  repeat split.
  - intros feat Hin. destruct (Hmed _ Hin) as (s & s' & Hg & Hm & Hg').
    destruct (impute_mode_map _ _ Hm) as (m & -> & Hmode).
    exists s, m. split; [exact Hg|]. split; [exact Hg'|].
    intros Hsent. specialize (Hmode Hsent).
    destruct (mode0_is_mode _ _ Hmode) as (Hms & Hna & _).
    split; [exact Hms|]. split; [exact Hna|].
    intros v Hv Hvna. exact (mode0_least _ _ Hmode v Hv Hvna).
  - intros feat Hin. destruct (Hoth _ Hin) as (s & Hg & Hg').
    exists s. split; [exact Hg | exact Hg'].
  - exact Hrest.
  - intros name Hin. apply Hrest. intros Hbad.
    simpl in Hin, Hbad.
    destruct Hin as [<-|[<-|[]]];
      repeat (destruct Hbad as [Hbad|Hbad]; [discriminate Hbad|]);
      exact Hbad.
  - exact Hc.
Qed.

Lemma fixture_has_imputed_columns :
  forall feat, In feat (medrisk_list ++ other_list) ->
    exists s, getitem feat Fixture.table = Ok s.
Proof.
  intros feat Hin. simpl in Hin.
  repeat (destruct Hin as [<-|Hin]; [eexists; vm_compute; reflexivity|]).
  contradiction.
Qed.

Lemma imputer_replaces_sentinels_witness :
  NoDup (columns Fixture.table) /\
  exists df',
    impute Fixture.table = Ok df' /\
    (forall feat, In feat medrisk_list ->
       exists s m,
         getitem feat Fixture.table = Ok s /\
         getitem feat df' =
           Ok (map (fun x =>
                      if PrimFloat.eqb x 8 || PrimFloat.eqb x 9 then m else x)
                   s) /\
         ((exists x, In x s /\ PrimFloat.eqb x 8 || PrimFloat.eqb x 9 = true) ->
          In m s /\ PrimFloat.eqb m m = true /\
          forall v, In v s -> PrimFloat.eqb v v = true ->
            length (filter (PrimFloat.eqb v) s)
              <= length (filter (PrimFloat.eqb m) s) /\
            (length (filter (PrimFloat.eqb v) s)
               = length (filter (PrimFloat.eqb m) s) ->
             PrimFloat.ltb v m = false))) /\
    (forall feat, In feat other_list ->
       exists s,
         getitem feat Fixture.table = Ok s /\
         let kept := filter (fun v => negb (PrimFloat.eqb v 99)) s in
         let n := length (filter (fun v => PrimFloat.eqb v v) kept) in
         let m :=
           if n =? 0 then PrimFloat.nan
           else PrimFloat.div
                  (Np.sum (map (fun v => if PrimFloat.eqb v v then v
                                         else 0%float) kept))
                  (F64.of_nat n) in
         getitem feat df' =
           Ok (map (fun x => if PrimFloat.eqb x 99 then m else x) s)) /\
    (forall name, ~ In name (medrisk_list ++ other_list) ->
       getitem name df' = getitem name Fixture.table) /\
    (forall name, In name other_list2 ->
       getitem name df' = getitem name Fixture.table) /\
    columns df' = columns Fixture.table.
Proof.
  assert (Hnd : NoDup (columns Fixture.table)).
  { apply (NoDup_map_inv (fun l => match l with
                                   | Col n => n
                                   | Indicator p _ => p
                                   end)).
    apply distinct_NoDup. vm_compute. reflexivity. }
  split; [exact Hnd|].
  apply (imputer_replaces_sentinels Fixture.table Hnd).
  exact fixture_has_imputed_columns.
Defined.

(** C5, refuted as stated: in the fixture [cigar] is 98, 100, 99, 99;
    the mean of the entries that are not 99 is 99, which is what the
    assignment of line 101 writes, and the two entries stay 99. *)
Lemma imputation_leaves_sentinels :
  exists df',
    impute Fixture.table = Ok df' /\
    getitem "cigar" Fixture.table = Ok [98; 100; 99; 99]%float /\
    getitem "cigar" df' = Ok [98; 100; 99; 99]%float /\
    ~ sentinel_free df'.
Proof.
  eexists. split; [vm_compute; reflexivity|].
  split; [reflexivity|]. split; [reflexivity|].
  intros [_ Hoth].
  specialize (Hoth "cigar" [98; 100; 99; 99]%float).
  assert (HF : Forall (fun v => PrimFloat.eqb v 99 = false)
                      [98; 100; 99; 99]%float).
  { apply Hoth; [simpl; tauto | reflexivity]. }
  inversion HF as [|? ? _ HF1]. inversion HF1 as [|? ? _ HF2].
  inversion HF2 as [|? ? H99 _]. vm_compute in H99. discriminate H99.
Qed.

(** C5, amended: after the imputation a continuous column holds no 99
    unless the mean of its entries other than 99 (their sum by [np.sum],
    NaN counting as 0, over the number of them that are not NaN) is
    itself 99. The entries that were not 99 are as they were. *)
Theorem imputation_clears_sentinels (df df' : DataFrame) :
  impute df = Ok df' ->
  forall feat s, In feat other_list -> getitem feat df = Ok s ->
    let kept := filter (fun v => negb (PrimFloat.eqb v 99)) s in
    let n := length (filter (fun v => PrimFloat.eqb v v) kept) in
    PrimFloat.eqb
      (PrimFloat.div
         (Np.sum (map (fun v => if PrimFloat.eqb v v then v else 0%float)
                      kept))
         (F64.of_nat n)) 99 = false ->
    exists s',
      getitem feat df' = Ok s' /\
      Forall (fun v => PrimFloat.eqb v 99 = false) s' /\
      Forall2 (fun x x' => PrimFloat.eqb x 99 = false -> x' = x) s s'.
Proof.
  intros Hrun feat s Hin Hg kept n Hmean.
  destruct (impute_columns _ _ Hrun) as (_ & Hoth & _ & _).
  destruct (Hoth _ Hin) as (s0 & Hg0 & Hg').
  assert (s0 = s) by congruence. subst s0.
  exists (impute_mean s). split; [assumption|].
  assert (Hm : PrimFloat.eqb
                 (Pd.mean (filter (fun x => negb (PrimFloat.eqb x 99)) s)) 99
               = false).
  { unfold Pd.mean. fold kept. change (length (dropna kept)) with n.
    destruct (n =? 0); [reflexivity | exact Hmean]. }
  unfold impute_mean. split.
  - apply Forall_forall. intros v Hv.
    apply in_map_iff in Hv as (x & <- & _).
    destruct (PrimFloat.eqb x 99) eqn:Ex; [exact Hm | exact Ex].
  - generalize (Pd.mean (filter (fun x => negb (PrimFloat.eqb x 99)) s)).
    intros m. clear. induction s as [|x s IH]; simpl.
    + constructor.
    + constructor; [|exact IH]. intros Hx. now rewrite Hx.
Qed.

Lemma imputation_clears_sentinels_witness :
  impute Fixture.table = Ok Fixture.imputed /\
  getitem "nprevist" Fixture.table = Ok [10; 12; 9; 99]%float /\
  exists s',
    getitem "nprevist" Fixture.imputed = Ok s' /\
    Forall (fun v => PrimFloat.eqb v 99 = false) s' /\
    Forall2 (fun x x' => PrimFloat.eqb x 99 = false -> x' = x)
            [10; 12; 9; 99]%float s'.
Proof.
  split; [vm_compute; reflexivity|]. split; [reflexivity|].
  apply (imputation_clears_sentinels Fixture.table Fixture.imputed);
    [vm_compute; reflexivity | simpl; tauto | reflexivity | reflexivity].
Defined.

(* ================================================================== *)
(** ** Treatment probabilities (claim C8) *)
(* ================================================================== *)

(** In binary64 no clipped entry compares greater than 1. *)
Lemma clip_float_bound (prob_t : list float) :
  Forall (fun p => PrimFloat.ltb 1 p = false) (clip prob_t).
Proof.
  unfold clip. apply Forall_forall. intros v Hv.
  apply in_map_iff in Hv as (p & <- & _).
  change (a_of_nat 1) with 1%float. simpl.
  destruct (PrimFloat.ltb 1 p) eqn:E; [reflexivity | exact E].
Qed.

(** The same in exact arithmetic. *)
Lemma clip_exact_bound (prob_t : list Q) :
  Forall (fun p => (p <= 1)%Q) (clip prob_t).
Proof.
  unfold clip. apply Forall_forall. intros v Hv.
  apply in_map_iff in Hv as (p & <- & _). simpl.
  destruct (Qle_bool p (inject_Z 1)) eqn:E; simpl.
  - apply Qle_bool_iff in E. exact E.
  - apply Qle_refl.
Qed.

(** The sum of a list of rationals. *)
Definition total (l : list Q) : Q := fold_right Qplus 0%Q l.

Lemma fold_left_total (l : list Q) (a : Q) :
  (fold_left Qplus l a == a + total l)%Q.
Proof.
  revert a. induction l as [|x l IH]; intros a; simpl.
  - ring.
  - rewrite IH. ring.
Qed.

Lemma total_app (l l' : list Q) : (total (l ++ l') == total l + total l')%Q.
Proof.
  induction l as [|x l IH]; simpl; [ring|]. rewrite IH. ring.
Qed.

(** In exact arithmetic the unrolled loop adds up its running sums and
    its addends. *)
Lemma unrolled_exact (n : nat) :
  forall (l : list Q) (r0 r1 r2 r3 r4 r5 r6 r7 : Q),
    (length l <= n)%nat ->
    (Np.unrolled r0 r1 r2 r3 r4 r5 r6 r7 l
     == r0 + r1 + r2 + r3 + r4 + r5 + r6 + r7 + total l)%Q.
Proof.
  induction n as [|n IH]; intros l r0 r1 r2 r3 r4 r5 r6 r7 Hlen.
  - destruct l; [|simpl in Hlen; lia]. simpl. ring.
  - destruct l as [|a0 [|a1 [|a2 [|a3 [|a4 [|a5 [|a6 [|a7 l']]]]]]]];
      cbn [Np.unrolled a_add exact_arith];
      try (rewrite fold_left_total; simpl; ring).
    rewrite IH by (simpl in Hlen; lia). simpl. ring.
Qed.

Lemma block_sum_exact (l : list Q) : (Np.block_sum l == total l)%Q.
Proof.
  destruct l as [|a0 [|a1 [|a2 [|a3 [|a4 [|a5 [|a6 [|a7 l']]]]]]]];
    cbn [Np.block_sum];
    try (unfold Np.sum_seq; cbn [a_add a_of_nat exact_arith];
         rewrite fold_left_total; simpl; ring).
  rewrite (unrolled_exact (length l')) by lia. simpl. ring.
Qed.

(** In exact arithmetic the pairwise sum is the sum. *)
Lemma pairwise_exact (fuel : nat) :
  forall l : list Q, (Np.pairwise fuel l == total l)%Q.
Proof.
  induction fuel as [|fuel IH]; intros l; cbn [Np.pairwise].
  - apply block_sum_exact.
  - destruct (length l <=? 128)%nat; [apply block_sum_exact|].
    cbn [a_add exact_arith]. rewrite !IH, <- total_app.
    now rewrite firstn_skipn.
Qed.

Lemma sum_exact (l : list Q) : (Np.sum l == total l)%Q.
Proof.
  unfold Np.sum. cbn [a_add a_of_nat exact_arith].
  rewrite pairwise_exact. simpl. ring.
Qed.

(** Dividing every term by [c] divides the sum by [c]. *)
Lemma total_scaled (c : Q) (l : list Q) :
  (total (map (fun p => p / c) l) == total l / c)%Q.
Proof.
  induction l as [|x l IH]; simpl.
  - unfold Qdiv. ring.
  - rewrite IH. unfold Qdiv. ring.
Qed.

(** In exact arithmetic the rescaled propensities have mean one half. *)
Lemma rescale_exact_mean (prob_temp : list Q) :
  ~ (Np.mean prob_temp == 0)%Q ->
  (Np.mean (rescale prob_temp) == 1 # 2)%Q.
Proof.
  unfold rescale, Np.mean. cbn [a_div a_mul a_of_nat exact_arith].
  rewrite length_map, !sum_exact.
  set (n := inject_Z (Z.of_nat (length prob_temp))).
  set (S := total prob_temp).
  intros Hm.
  assert (Hn : ~ (n == 0)%Q).
  { intros Hn. apply Hm. unfold Qdiv. rewrite Hn.
    unfold Qinv. simpl. ring. }
  assert (HS : ~ (S == 0)%Q).
  { intros HS. apply Hm. rewrite HS. unfold Qdiv. ring. }
  rewrite total_scaled, sum_exact. fold S.
  change (inject_Z (Z.of_nat 2)) with (2 # 1)%Q. field. repeat split; auto.
Qed.

(** C8, refuted as stated: for the propensities 0.1 and 0.3, whose mean
    is not zero, numpy's binary64 arithmetic gives the rescaled vector
    [0.25, 0.7499999999999999] and its mean 0.49999999999999994, which
    is not 0.5. *)
Lemma rescaled_mean_not_half_in_binary64 :
  PrimFloat.eqb (Np.mean [0.1; 0.3]%float) 0 = false /\
  rescale [0.1; 0.3]%float = [0.25; 0x1.7ffffffffffffp-1]%float /\
  Np.mean (rescale [0.1; 0.3]%float) = 0x1.fffffffffffffp-2%float /\
  PrimFloat.eqb (Np.mean (rescale [0.1; 0.3]%float)) 0.5 = false.
Proof. repeat split; vm_compute; reflexivity. Qed.

(** C8, amended: the probabilities are the propensities divided by twice
    their mean, with the values above 1 set to 1. After the clipping no
    entry exceeds 1, in binary64 as in exact arithmetic. Before the
    clipping the vector has mean exactly one half in exact arithmetic
    whenever the mean of the propensities is not zero; the binary64 mean
    that numpy computes is only close to it. *)
Theorem treatment_probability_bounds :
  (forall prob_temp : list float,
     Forall (fun p => PrimFloat.ltb 1 p = false) (clip (rescale prob_temp))) /\
  (forall prob_temp : list Q,
     Forall (fun p => (p <= 1)%Q) (clip (rescale prob_temp))) /\
  (forall prob_temp : list Q,
     ~ (Np.mean prob_temp == 0)%Q ->
     (Np.mean (rescale prob_temp) == 1 # 2)%Q).
Proof.
  split; [|split].
  - intros prob_temp. apply clip_float_bound.
  - intros prob_temp. apply clip_exact_bound.
  - exact rescale_exact_mean.
Qed.

Lemma treatment_probability_bounds_witness :
  ~ (Np.mean [1 # 10; 3 # 10] == 0)%Q /\
  (Np.mean (rescale [1 # 10; 3 # 10]) == 1 # 2)%Q.
Proof.
  assert (Hm : ~ (Np.mean [1 # 10; 3 # 10] == 0)%Q)
    by (vm_compute; discriminate).
  split; [exact Hm|].
  exact (proj2 (proj2 treatment_probability_bounds) [1 # 10; 3 # 10]%Q Hm).
Defined.

(* ================================================================== *)
(** ** binary64: exact products and conversions *)
(* ================================================================== *)

Lemma shr_fexp_canonical (m : positive) (e : Z) :
  canonical_mantissa prec emax m e = true ->
  shr_fexp prec emax (Zpos m) e loc_Exact =
  ({| shr_m := Zpos m; shr_r := false; shr_s := false |}, e).
Proof.
  unfold canonical_mantissa. intros Hc. apply Z.eqb_eq in Hc.
  unfold shr_fexp. simpl Zdigits2. rewrite Hc, Z.sub_diag. reflexivity.
Qed.

Lemma round_canonical (s : bool) (m : positive) (e : Z) :
  canonical_mantissa prec emax m e = true ->
  (e <=? emax - prec)%Z = true ->
  binary_round_aux prec emax s (Zpos m) e loc_Exact = S754_finite s m e.
Proof.
  intros Hc He. unfold binary_round_aux.
  rewrite (shr_fexp_canonical m e Hc).
  cbn [shr_m loc_of_shr_record round_nearest_even].
  rewrite (shr_fexp_canonical m e Hc). cbn [shr_m].
  rewrite He. reflexivity.
Qed.

Lemma pos_pow2_add (a b : positive) :
  (2 ^ (a + b) = 2 ^ a * 2 ^ b)%positive.
Proof.
  apply Pos2Z.inj. rewrite Pos2Z.inj_mul, !Pos2Z.inj_pow, Pos2Z.inj_add.
  apply Z.pow_add_r; lia.
Qed.

Lemma pow2_succ (k : positive) (m : positive) :
  (m * 2 ^ Pos.succ k = (m * 2 ^ k)~0)%positive.
Proof. rewrite Pos.pow_succ_r. lia. Qed.

Lemma digits2_pos_shifted (m k : positive) :
  digits2_pos (m * 2 ^ k) = (digits2_pos m + k)%positive.
Proof.
  induction k as [|k IH] using Pos.peano_ind.
  - replace (m * 2 ^ 1)%positive with (m~0)%positive by lia. simpl. lia.
  - rewrite pow2_succ. simpl. rewrite IH. lia.
Qed.

Lemma iter_xO_pow2 (m k : positive) : Pos.iter xO m k = (m * 2 ^ k)%positive.
Proof.
  induction k as [|k IH] using Pos.peano_ind.
  - simpl. lia.
  - rewrite Pos.iter_succ, IH, pow2_succ. reflexivity.
Qed.

(** Shifting [m * 2^k] right by [k] gives back [m], exactly. *)
Lemma iter_shr_1_exact (k : positive) (m : positive) :
  SpecFloat.iter_pos shr_1 k
    {| shr_m := Zpos (m * 2 ^ k); shr_r := false; shr_s := false |}
  = {| shr_m := Zpos m; shr_r := false; shr_s := false |}.
Proof.
  revert m. induction k as [k IH|k IH|]; intros m; simpl SpecFloat.iter_pos.
  - replace (m * 2 ^ k~1)%positive with (((m * 2 ^ k) * 2 ^ k)~0)%positive.
    + simpl shr_1. rewrite IH. apply IH.
    + change (k~1)%positive with (Pos.succ k~0). rewrite pow2_succ.
      replace (k~0)%positive with (k + k)%positive by lia.
      rewrite pos_pow2_add. f_equal. lia.
  - replace (m * 2 ^ k~0)%positive with ((m * 2 ^ k) * 2 ^ k)%positive.
    + rewrite IH. apply IH.
    + replace (k~0)%positive with (k + k)%positive by lia.
      rewrite pos_pow2_add. lia.
  - replace (m * 2 ^ 1)%positive with (m~0)%positive by lia. reflexivity.
Qed.

Lemma canonical_fexp (m : positive) (e : Z) :
  canonical_mantissa prec emax m e = true ->
  fexp prec emax (Zpos (digits2_pos m) + e) = e.
Proof. unfold canonical_mantissa. apply Z.eqb_eq. Qed.

(** Multiplication by 1 is exact. *)
Lemma SFmul_one_l (x : spec_float) :
  valid_binary x = true ->
  SF64mul (Prim2SF 1) x = x.
Proof.
  intros Hv.
  change (Prim2SF 1) with (S754_finite false 4503599627370496 (-52)).
  destruct x as [s|s| |s m e]; try reflexivity.
  unfold SF64mul, SFmul. cbn [xorb].
  simpl in Hv. unfold bounded in Hv. apply andb_prop in Hv as [Hc He].
  pose proof (canonical_fexp m e Hc) as Hf.
  replace (4503599627370496 * m)%positive with (m * 2 ^ 52)%positive by lia.
  unfold binary_round_aux.
  assert (Hs : shr_fexp prec emax (Zpos (m * 2 ^ 52)) (-52 + e) loc_Exact =
               ({| shr_m := Zpos m; shr_r := false; shr_s := false |}, e)).
  { unfold shr_fexp. simpl Zdigits2. rewrite digits2_pos_shifted.
    replace (Z.pos (digits2_pos m + 52) + (-52 + e))%Z
      with (Z.pos (digits2_pos m) + e)%Z by lia.
    rewrite Hf.
    replace (e - (-52 + e))%Z with 52%Z by lia.
    unfold shr. cbn [shr_record_of_loc].
    rewrite (iter_shr_1_exact 52 m). f_equal. lia. }
  rewrite Hs. cbn [shr_m loc_of_shr_record round_nearest_even].
  rewrite (shr_fexp_canonical m e Hc). cbn [shr_m].
  rewrite He. reflexivity.
Qed.

Lemma mul_one_l (x : float) : Prim2SF (1 * x) = Prim2SF x.
Proof. rewrite FloatAxioms.mul_spec. apply SFmul_one_l. apply Prim2SF_valid. Qed.

Lemma digits2_pos_size (p : positive) : digits2_pos p = Pos.size p.
Proof. induction p; simpl; congruence. Qed.

Lemma digits2_pos_le_53 (p : positive) :
  (Zpos p < 2 ^ 53)%Z -> (Zpos (digits2_pos p) <= 53)%Z.
Proof.
  intros Hp. rewrite digits2_pos_size.
  pose proof (Pos.size_le p) as Hle.
  apply Pos2Z.pos_le_pos in Hle. rewrite Pos2Z.inj_pow in Hle.
  destruct (Z_le_gt_dec (Zpos (Pos.size p)) 53) as [|Hgt]; [assumption|].
  exfalso.
  assert (2 ^ 54 <= 2 ^ Zpos (Pos.size p))%Z by (apply Z.pow_le_mono_r; lia).
  change (Zpos p~0) with (2 * Zpos p)%Z in Hle. lia.
Qed.

(** The binary64 number of a positive integer below 2^53 is that
    integer, exactly. *)
Lemma normalize_small (p : positive) :
  (Zpos p < 2 ^ 53)%Z ->
  exists m e,
    binary_normalize prec emax (Zpos p) 0 false = S754_finite false m e /\
    Z.shiftl (Zpos m) e = Zpos p.
Proof.
  intros Hp. pose proof (digits2_pos_le_53 p Hp) as Hd.
  unfold binary_normalize, binary_round.
  rewrite Z.add_0_r.
  assert (Hf : fexp prec emax (Zpos (digits2_pos p)) = (Zpos (digits2_pos p) - 53)%Z).
  { unfold fexp, SpecFloat.emin. change prec with 53%Z. change emax with 1024%Z. lia. }
  rewrite Hf. unfold shl_align. rewrite Z.sub_0_r.
  destruct (Zpos (digits2_pos p) - 53)%Z as [|d|d] eqn:Hk.
  - exists p, 0%Z. split; [|reflexivity].
    apply round_canonical; [|reflexivity].
    unfold canonical_mantissa. rewrite Z.add_0_r, Hf. reflexivity.
  - lia.
  - exists (Pos.iter xO p d), (Zneg d). split.
    + apply round_canonical; [|reflexivity].
      unfold canonical_mantissa. rewrite iter_xO_pow2, digits2_pos_shifted.
      apply Z.eqb_eq. unfold fexp, SpecFloat.emin.
      change prec with 53%Z. change emax with 1024%Z. lia.
    + rewrite iter_xO_pow2. rewrite Z.shiftl_div_pow2 by lia.
      rewrite Pos2Z.inj_mul, Pos2Z.inj_pow. simpl Z.opp.
      apply Z.div_mul. lia.
Qed.

Lemma of_nat_exact (n : nat) :
  (Z.of_nat n < 2 ^ 53)%Z ->
  (n = O /\ Prim2SF (F64.of_nat n) = S754_zero false) \/
  (exists m e, Prim2SF (F64.of_nat n) = S754_finite false m e /\
               Z.shiftl (Zpos m) e = Z.of_nat n).
Proof.
  intros Hn. unfold F64.of_nat. rewrite of_uint63_spec, Uint63.of_Z_spec.
  rewrite Z.mod_small
    by (split; [lia | eapply Z.lt_trans; [exact Hn | reflexivity]]).
  destruct (Z.of_nat n) as [|p|p] eqn:Hz.
  - left. split; [lia | reflexivity].
  - right. apply normalize_small. exact Hn.
  - lia.
Qed.

(** [int(float(n))] is [n]. *)
Lemma to_int_of_nat (n : nat) :
  (Z.of_nat n < 2 ^ 53)%Z -> F64.to_int (F64.of_nat n) = Ok (Z.of_nat n).
Proof.
  intros Hn. unfold F64.to_int.
  destruct (of_nat_exact n Hn) as [[-> ->]|(m & e & -> & He)].
  - reflexivity.
  - simpl. now rewrite He.
Qed.

(** [int(1.0 * n)] is [n]. *)
Lemma train_size_one (no : nat) :
  (Z.of_nat no < 2 ^ 53)%Z -> train_size 1 no = Ok (Z.of_nat no).
Proof.
  intros Hn. unfold train_size.
  rewrite <- (to_int_of_nat no Hn). unfold F64.to_int.
  now rewrite mul_one_l.
Qed.

(** [int(0.0 * n)] is 0. *)
Lemma train_size_zero (no : nat) :
  (Z.of_nat no < 2 ^ 53)%Z -> train_size 0 no = Ok 0%Z.
Proof.
  intros Hn. unfold train_size, F64.to_int. rewrite FloatAxioms.mul_spec.
  change (Prim2SF 0) with (S754_zero false).
  destruct (of_nat_exact no Hn) as [[_ ->]|(m & e & -> & _)]; reflexivity.
Qed.

(** Where the floor is not negative, truncation agrees with it. *)
Lemma floor_to_int (f : float) (j : Z) :
  F64.floor f = Ok j -> (0 <= j)%Z -> F64.to_int f = Ok j.
Proof.
  unfold F64.floor, F64.to_int.
  destruct (Prim2SF f) as [s|s| |s m e]; try discriminate; auto.
  destruct s; simpl; [|auto].
  intros Hj Hpos. injection Hj as <-.
  apply Z.shiftl_nonneg in Hpos. lia.
Qed.

(* ================================================================== *)
(** ** The test double meets the guarantees *)
(* ================================================================== *)

Lemma fixture_table_wf : wf_frame Fixture.table.
Proof.
  split.
  - vm_compute columns.
    repeat (constructor;
            [simpl; intros Hin;
             repeat (destruct Hin as [Hin|Hin]; [discriminate Hin|]);
             exact Hin|]).
    constructor.
  - vm_compute. repeat constructor.
Qed.

Lemma double_spec : ExternalsSpec Fixture.double.
Proof.
  constructor; simpl.
  - intros loc scale n g. apply repeat_length.
  - intros p g t g' Hdraw.
    destruct (forallb Fixture.valid_probability p); [|discriminate].
    injection Hdraw as <- <-. split; [apply length_map|].
    apply Forall_forall. intros v Hv. apply in_map_iff in Hv as (q & <- & _).
    destruct (PrimFloat.leb 0.5 q); auto.
  - intros n g. symmetry. apply Permutation_rev.
  - intros bytes df Hparse.
    destruct (String.eqb bytes Fixture.bytes); [|discriminate].
    injection Hparse as <-. exact fixture_table_wf.
Qed.

(* ================================================================== *)
(** ** Train/test division (claim C4) *)
(* ================================================================== *)

Lemma slice_to_from {A : Type} (k : Z) (a : list A) :
  Py.slice_to k a ++ Py.slice_from k a = a.
Proof. apply firstn_skipn. Qed.

Lemma slice_bound_le (k : Z) (n : nat) : Py.slice_bound k n <= n.
Proof.
  unfold Py.slice_bound. destruct (k <? 0)%Z eqn:E; [|lia].
  apply Z.ltb_lt in E. lia.
Qed.

Lemma slice_bound_inside (k : Z) (n : nat) :
  (0 <= k <= Z.of_nat n)%Z -> Z.of_nat (Py.slice_bound k n) = k.
Proof.
  intros Hk. unfold Py.slice_bound.
  destruct (k <? 0)%Z eqn:E; [apply Z.ltb_lt in E; lia|]. lia.
Qed.

Lemma length_slice_to {A : Type} (k : Z) (a : list A) :
  length (Py.slice_to k a) = Py.slice_bound k (length a).
Proof.
  unfold Py.slice_to. apply firstn_length_le. apply slice_bound_le.
Qed.

Lemma length_take {B : Type} (d : B) (idx : list nat) (a : list B) :
  length (Np.take d idx a) = length idx.
Proof. apply length_map. Qed.

Lemma train_test_division_inv (train_rate : float) (no : nat)
  (idx train_idx test_idx : list nat) :
  train_test_division train_rate no idx = Ok (train_idx, test_idx) ->
  exists k, train_size train_rate no = Ok k /\
            train_idx = Py.slice_to k idx /\ test_idx = Py.slice_from k idx.
Proof.
  unfold train_test_division. intros Hd.
  destruct (train_size train_rate no) as [k|e]; [|discriminate].
  simpl in Hd. injection Hd as <- <-. now exists k.
Qed.

(** The two index arrays are the permutation cut in two. *)
Lemma train_test_division_app (train_rate : float) (no : nat)
  (idx train_idx test_idx : list nat) :
  train_test_division train_rate no idx = Ok (train_idx, test_idx) ->
  train_idx ++ test_idx = idx.
Proof.
  intros Hd. apply train_test_division_inv in Hd as (k & _ & -> & ->).
  apply slice_to_from.
Qed.

Lemma NoDup_app_disjoint {A : Type} (l l' : list A) (x : A) :
  NoDup (l ++ l') -> In x l -> ~ In x l'.
Proof.
  induction l as [|a l IH]; simpl; intros Hnd Hin; [contradiction|].
  inversion Hnd as [|? ? Ha Hnd']; subst.
  destruct Hin as [->|Hin]; [|auto].
  intros Hx. apply Ha. apply in_or_app. now right.
Qed.

(** C4, refuted as stated: for a rate above 1 or below 0 the training
    rows are not [floor(train_rate * no)] many. With two records and the
    rate 1.5 both go to training, and the floor is 3; with three records
    and the rate -0.5 the slice [idx[:-1]] keeps two for training, and
    the floor is -2. *)
Lemma division_size_not_floor :
  train_test_division 1.5 2 [1; 0] = Ok ([1; 0], []) /\
  F64.floor (1.5 * F64.of_nat 2) = Ok 3%Z /\
  train_test_division (-0.5) 3 [2; 0; 1] = Ok ([2; 0], [1]) /\
  F64.floor (-0.5 * F64.of_nat 3) = Ok (-2)%Z.
Proof. repeat split; vm_compute; reflexivity. Qed.

(** C4, amended: whenever [int(train_rate * no)] is defined, the
    division returns; the train and test index arrays are disjoint and
    together hold every index of [0, no) exactly once, and the training
    rows and the test rows are [no] together. The training rows are
    [floor(train_rate * no)] many whenever that floor lies between 0 and
    [no]. *)
Theorem division_partitions_records {E : Externals} (ES : ExternalsSpec E)
  (train_rate : float) (s : synthesized) (g : rng) (k : Z) :
  train_size train_rate (s_no s) = Ok k ->
  exists out g' train_idx test_idx,
    divide train_rate s g = Ok (out, g') /\
    train_test_division train_rate (s_no s) (fst (permutation (s_no s) g))
      = Ok (train_idx, test_idx) /\
    train_x out = Np.take [] train_idx (s_x s) /\
    test_x out = Np.take [] test_idx (s_x s) /\
    Permutation (train_idx ++ test_idx) (seq 0 (s_no s)) /\
    NoDup (train_idx ++ test_idx) /\
    (forall i, In i train_idx -> ~ In i test_idx) /\
    length (train_x out) + length (test_x out) = s_no s /\
    (forall j, F64.floor (train_rate * F64.of_nat (s_no s)) = Ok j ->
               (0 <= j <= Z.of_nat (s_no s))%Z ->
               Z.of_nat (length (train_x out)) = j).
Proof.
  intros Hk. unfold divide, train_test_division.
  pose proof (permutation_perm (s_no s) g) as Hperm.
  destruct (permutation (s_no s) g) as [idx g1]. simpl in Hperm.
  rewrite Hk. simpl.
  eexists _, g1, (Py.slice_to k idx), (Py.slice_from k idx).
  split; [reflexivity|]. split; [reflexivity|].
  simpl. split; [reflexivity|]. split; [reflexivity|].
  assert (Hlen : length idx = s_no s).
  { rewrite (Permutation_length Hperm). apply length_seq. }
  assert (Hnd : NoDup (Py.slice_to k idx ++ Py.slice_from k idx)).
  { rewrite slice_to_from. eapply Permutation_NoDup.
    - symmetry. exact Hperm.
    - apply seq_NoDup. }
  split; [now rewrite slice_to_from|]. split; [exact Hnd|].
  split; [intros i; now apply NoDup_app_disjoint|].
  split.
  - rewrite !length_take, <- length_app, slice_to_from. exact Hlen.
  - intros j Hfloor Hj.
    assert (Hkj : k = j).
    { apply floor_to_int in Hfloor; [|lia].
      unfold train_size in Hk. congruence. }
    subst j. rewrite length_take, length_slice_to, Hlen.
    now apply slice_bound_inside.
Qed.

Lemma division_partitions_records_witness :
  exists out g' train_idx test_idx,
    divide (E := Fixture.double) 0.8 (Fixture.synth 4) O = Ok (out, g') /\
    train_test_division 0.8 4 [3; 2; 1; 0] = Ok (train_idx, test_idx) /\
    train_x out = Np.take [] train_idx (values Fixture.imputed) /\
    test_x out = Np.take [] test_idx (values Fixture.imputed) /\
    Permutation (train_idx ++ test_idx) (seq 0 4) /\
    NoDup (train_idx ++ test_idx) /\
    (forall i, In i train_idx -> ~ In i test_idx) /\
    length (train_x out) + length (test_x out) = 4 /\
    (forall j, F64.floor (0.8 * F64.of_nat 4) = Ok j ->
               (0 <= j <= Z.of_nat 4)%Z ->
               Z.of_nat (length (train_x out)) = j).
Proof.
  exact (division_partitions_records double_spec 0.8 (Fixture.synth 4) O 3
           eq_refl).
Defined.

(* ================================================================== *)
(** ** Outcomes and treatments (claims C3 and C7) *)
(* ================================================================== *)

Lemma length_values (df : DataFrame) : length (values df) = nrows df.
Proof. unfold values. rewrite length_map. apply length_seq. Qed.

Lemma nth_values (df : DataFrame) (i : nat) :
  i < nrows df -> nth i (values df) [] = row i df.
Proof.
  intros Hi. unfold values.
  rewrite (nth_indep _ [] (row 0 df)) by (rewrite length_map, length_seq; lia).
  rewrite (map_nth (fun j => row j df)). now rewrite seq_nth.
Qed.

Lemma nth_take {B : Type} (d : B) (idx : list nat) (a : list B) (k : nat) :
  k < length idx -> nth k (Np.take d idx a) d = nth (nth k idx 0) a d.
Proof.
  intros Hk. unfold Np.take.
  rewrite (nth_indep _ d (nth 0 a d)) by (rewrite length_map; lia).
  now rewrite (map_nth (fun i => nth i a d)).
Qed.

Lemma rename_columns_all_length (n : nat) (df : DataFrame) :
  all_length n (rename_columns df) <-> all_length n df.
Proof.
  unfold all_length, rename_columns. rewrite Forall_map. simpl. tauto.
Qed.

Lemma nrows_rename_columns (df : DataFrame) :
  nrows (rename_columns df) = nrows df.
Proof. destruct df as [|[l c] df]; reflexivity. Qed.

(** The label columns picked by [df[label_list]]. *)
Lemma select_label_list (df labels : DataFrame) :
  select label_list df = Ok labels ->
  exists c0 c1,
    getitem "outcome(t=0)" df = Ok c0 /\
    getitem "outcome(t=1)" df = Ok c1 /\
    labels = [(Col "outcome(t=0)", c0); (Col "outcome(t=1)", c1)].
Proof.
  unfold select, label_list. cbn [mapM]. intros Hs.
  destruct (getitem "outcome(t=0)" df) as [c0|e0]; [|discriminate].
  destruct (getitem "outcome(t=1)" df) as [c1|e1]; [|discriminate].
  simpl in Hs. injection Hs as <-. now exists c0, c1.
Qed.

Lemma potential_outcomes_entries (df : DataFrame)
  (potential_y : list (list Z)) :
  all_length (nrows df) df ->
  potential_outcomes df = Ok potential_y ->
  exists c0 c1,
    getitem "outcome(t=0)" df = Ok c0 /\
    getitem "outcome(t=1)" df = Ok c1 /\
    potential_y =
      map (fun i => [binarize (nth i c0 PrimFloat.nan);
                     binarize (nth i c1 PrimFloat.nan)])
          (seq 0 (nrows df)).
Proof.
  intros Hall Hpo. unfold potential_outcomes in Hpo. bind_inv Hpo.
  injection Hpo as <-.
  apply select_label_list in Ha as (c0 & c1 & H0 & H1 & ->).
  exists c0, c1. repeat split; auto.
  unfold values. simpl nrows.
  rewrite (getitem_length _ _ _ _ Hall H0). rewrite map_map. reflexivity.
Qed.

Lemma binarize_bit (v : float) : bit (binarize v).
Proof. unfold binarize, bit. destruct (PrimFloat.ltb v 9999); auto. Qed.

Lemma length_vadd (a b : list float) :
  length (Np.vadd a b) = Nat.min (length a) (length b).
Proof. unfold Np.vadd. rewrite length_map. apply length_combine. Qed.

(** One treatment per record, each 0 or 1. *)
Lemma assign_treatment_draws {E : Externals} (ES : ExternalsSpec E)
  (x : list (list float)) (no dim : nat) (g g' : rng) (t : list Z) :
  length x = no ->
  assign_treatment x no dim g = Ok (t, g') ->
  length t = no /\ Forall bit t.
Proof.
  intros Hx. unfold assign_treatment.
  destruct (uniform (-0.01) 0.01 dim g) as [coef g1].
  pose proof (normal_length 0%float 0.01%float no g1) as Hnoise.
  destruct (normal 0 0.01 no g1) as [noise g2]. simpl in Hnoise.
  intros Hdraw. apply binomial_draws in Hdraw as [Hlen Hbits].
  split; [|exact Hbits].
  rewrite Hlen. unfold clip, rescale, propensity.
  rewrite !length_map, length_vadd. unfold Np.matmul.
  rewrite length_map. lia.
Qed.

Lemma nth_observe (t : list Z) (potential_y : list (list Z)) (i : nat) :
  length t = length potential_y -> i < length t ->
  nth i (observe t potential_y) 0%Z =
  (nth i t 0 * nth 1 (nth i potential_y []) 0
   + (1 - nth i t 0) * nth 0 (nth i potential_y []) 0)%Z.
Proof.
  intros Hlen Hi. unfold observe.
  set (f := fun p : Z * list Z =>
              let '(ti, py) := p in
              (ti * nth 1 py 0 + (1 - ti) * nth 0 py 0)%Z).
  rewrite (nth_indep _ 0%Z (f (0%Z, [])))
    by (rewrite length_map, length_combine; lia).
  rewrite (map_nth f). rewrite combine_nth by assumption. reflexivity.
Qed.

Lemma length_observe (t : list Z) (potential_y : list (list Z)) :
  length t = length potential_y -> length (observe t potential_y) = length t.
Proof.
  intros Hlen. unfold observe. rewrite length_map, length_combine. lia.
Qed.

Lemma synthesize_ok {E : Externals} (ES : ExternalsSpec E)
  (df df_new : DataFrame) (g g' : rng) (s : synthesized) :
  all_length (nrows df) df ->
  synthesize df df_new g = Ok (s, g') ->
  synthesized_ok df s.
Proof.
  intros Hall Hs. unfold synthesize, shape in Hs.
  bind_inv Hs. rename a into potential_y.
  bind_inv Hs. destruct a as [t g1]. injection Hs as <- <-.
  apply (assign_treatment_draws ES) in Ha0 as [Ht Hbits];
    [|apply length_values].
  constructor; simpl; auto.
  now apply potential_outcomes_entries.
Qed.

Lemma read_csv_wf {E : Externals} (ES : ExternalsSpec E) (fn_csv : string)
  (fs : FileSystem) (df0 : DataFrame) :
  read_csv fn_csv fs = Ok df0 -> wf_frame (rename_columns df0).
Proof.
  unfold read_csv. destruct (fs fn_csv) as [bytes|]; [|discriminate].
  apply parse_csv_wf.
Qed.

(** The stages [prepare] went through when it returns. *)
Lemma prepare_inv {E : Externals} (ES : ExternalsSpec E) (fn_csv : string)
  (fs : FileSystem) (g g' : rng) (s : synthesized) :
  prepare fn_csv fs g = Ok (s, g') ->
  exists df0 df df_new,
    read_csv fn_csv fs = Ok df0 /\
    impute (rename_columns df0) = Ok df /\
    build_features df = Ok df_new /\
    synthesize df df_new g = Ok (s, g') /\
    wf_frame df /\
    synthesized_ok df s.
Proof.
  unfold prepare. intros Hp.
  bind_inv Hp. rename a into df0. bind_inv Hp. rename a into df.
  bind_inv Hp. rename a into df_new.
  pose proof (read_csv_wf ES _ _ _ Ha) as Hwf0.
  destruct (impute_wf _ _ Hwf0 Ha0) as [Hwf _].
  exists df0, df, df_new.
  split; [exact Ha|]. split; [exact Ha0|]. split; [exact Ha1|].
  split; [exact Hp|]. split; [exact Hwf|].
  eapply synthesize_ok; [exact ES| |exact Hp].
  apply wf_frame_all_length. exact Hwf.
Qed.

Lemma preprocess_inv {E : Externals} (fn_csv : string) (train_rate : float)
  (fs : FileSystem) (g g' : rng) (out : outputs) :
  preprocess fn_csv train_rate fs g = Ok (out, g') ->
  exists s g1, prepare fn_csv fs g = Ok (s, g1) /\
               divide train_rate s g1 = Ok (out, g').
Proof.
  unfold preprocess. intros Hp. bind_inv Hp. destruct a as [s g1].
  now exists s, g1.
Qed.

Lemma divide_inv {E : Externals} (ES : ExternalsSpec E)
  (train_rate : float) (s : synthesized) (g g' : rng) (out : outputs) :
  divide train_rate s g = Ok (out, g') ->
  exists train_idx test_idx,
    train_idx ++ test_idx = fst (permutation (s_no s) g) /\
    Permutation (train_idx ++ test_idx) (seq 0 (s_no s)) /\
    out = {| train_x := Np.take [] train_idx (s_x s);
             train_t := Np.take 0%Z train_idx (s_t s);
             train_y := Np.take 0%Z train_idx (s_y s);
             train_potential_y := Np.take [] train_idx (s_potential_y s);
             test_x := Np.take [] test_idx (s_x s);
             test_potential_y := Np.take [] test_idx (s_potential_y s) |}.
Proof.
  unfold divide. intros Hd.
  pose proof (permutation_perm (s_no s) g) as Hperm.
  destruct (permutation (s_no s) g) as [idx g1]. simpl in *.
  bind_inv Hd. destruct a as [train_idx test_idx]. injection Hd as <- <-.
  apply train_test_division_app in Ha.
  exists train_idx, test_idx. rewrite Ha. auto.
Qed.

Lemma label_not_imputed (name : string) :
  In name label_list -> ~ In name (medrisk_list ++ other_list).
Proof.
  intros Hin Hbad. simpl in Hin, Hbad.
  destruct Hin as [<-|[<-|[]]];
    repeat (destruct Hbad as [Hbad|Hbad]; [discriminate Hbad|]);
    exact Hbad.
Qed.

Lemma observed_selects (t : Z) (py : list Z) :
  bit t -> observed t py = nth (Z.to_nat t) py 0%Z.
Proof.
  unfold observed. intros [->| ->].
  - change (Z.to_nat 0) with 0. ring.
  - change (Z.to_nat 1) with 1. ring.
Qed.

Lemma synthesized_outcome {df : DataFrame} {s : synthesized} (i : nat) :
  synthesized_ok df s -> i < s_no s ->
  nth i (s_y s) 0%Z = observed (nth i (s_t s) 0%Z) (nth i (s_potential_y s) []) /\
  bit (nth i (s_t s) 0%Z).
Proof.
  intros Hok Hi. rewrite (ok_no _ _ Hok) in Hi.
  assert (Hpy : length (s_potential_y s) = nrows df).
  { destruct (ok_potential_y _ _ Hok) as (c0 & c1 & _ & _ & ->).
    rewrite length_map. apply length_seq. }
  pose proof (ok_t_length _ _ Hok) as Ht.
  split.
  - rewrite (ok_y _ _ Hok). apply nth_observe; lia.
  - pose proof (ok_t_bits _ _ Hok) as Hbits.
    rewrite Forall_forall in Hbits. apply Hbits. apply nth_In. lia.
Qed.

(** An index of the training or the test array is a record index. *)
Lemma division_index_in_range (train_idx test_idx : list nat) (no k : nat) :
  Permutation (train_idx ++ test_idx) (seq 0 no) ->
  k < length train_idx -> nth k train_idx 0 < no.
Proof.
  intros Hperm Hk.
  assert (Hin : In (nth k train_idx 0) (seq 0 no)).
  { eapply Permutation_in; [exact Hperm|].
    apply in_or_app. left. now apply nth_In. }
  apply in_seq in Hin. lia.
Qed.

Lemma nth_potential_y (df : DataFrame) (s : synthesized) (c0 c1 : Series)
  (i : nat) :
  s_potential_y s =
    map (fun i => [binarize (nth i c0 PrimFloat.nan);
                   binarize (nth i c1 PrimFloat.nan)])
        (seq 0 (nrows df)) ->
  i < nrows df ->
  nth i (s_potential_y s) [] =
    [binarize (nth i c0 PrimFloat.nan); binarize (nth i c1 PrimFloat.nan)].
Proof.
  intros -> Hi.
  rewrite (nth_indep _ [] [binarize (nth 0 c0 PrimFloat.nan);
                           binarize (nth 0 c1 PrimFloat.nan)])
    by (rewrite length_map, length_seq; exact Hi).
  rewrite (map_nth (fun j => [binarize (nth j c0 PrimFloat.nan);
                              binarize (nth j c1 PrimFloat.nan)])).
  now rewrite seq_nth.
Qed.

(** The division [divide] made when it returns. *)
Lemma divide_division {E : Externals} (train_rate : float) (s : synthesized)
  (g g' : rng) (out : outputs) :
  divide train_rate s g = Ok (out, g') ->
  exists train_idx test_idx,
    train_test_division train_rate (s_no s) (fst (permutation (s_no s) g))
      = Ok (train_idx, test_idx) /\
    out = {| train_x := Np.take [] train_idx (s_x s);
             train_t := Np.take 0%Z train_idx (s_t s);
             train_y := Np.take 0%Z train_idx (s_y s);
             train_potential_y := Np.take [] train_idx (s_potential_y s);
             test_x := Np.take [] test_idx (s_x s);
             test_potential_y := Np.take [] test_idx (s_potential_y s) |}.
Proof.
  unfold divide. intros Hd.
  destruct (permutation (s_no s) g) as [idx g1]. simpl.
  bind_inv Hd. destruct a as [train_idx test_idx]. injection Hd as <- <-.
  now exists train_idx, test_idx.
Qed.

(** C3: whenever [preprocess] returns, it has read a table [df0] and
    holds, before the division, a treatment [t], a row of two potential
    outcomes and an observed outcome [y] for each of the [nrows df0]
    records of that table. For every record [i],
    [y[i] = t[i] * potential_y[i,1] + (1 - t[i]) * potential_y[i,0]],
    which is [potential_y[i, t[i]]]. The training arrays are [t], [y] and
    [potential_y] at the training indices of the division, each of which
    is a record index, so the identity holds for every row of [train_y]
    with respect to [train_t] and [train_potential_y]. *)
Theorem observed_outcome_selects_potential {E : Externals}
  (ES : ExternalsSpec E) (fn_csv : string) (train_rate : float)
  (fs : FileSystem) (g g' : rng) (out : outputs) :
  preprocess fn_csv train_rate fs g = Ok (out, g') ->
  exists df0 s g1 train_idx test_idx,
    read_csv fn_csv fs = Ok df0 /\
    prepare fn_csv fs g = Ok (s, g1) /\
    s_no s = nrows df0 /\
    length (s_t s) = nrows df0 /\
    length (s_potential_y s) = nrows df0 /\
    length (s_y s) = nrows df0 /\
    (forall i, i < nrows df0 ->
       length (nth i (s_potential_y s) []) = 2 /\
       (nth i (s_t s) 0%Z = 0%Z \/ nth i (s_t s) 0%Z = 1%Z) /\
       nth i (s_y s) 0%Z =
         (nth i (s_t s) 0 * nth 1 (nth i (s_potential_y s) []) 0
          + (1 - nth i (s_t s) 0) * nth 0 (nth i (s_potential_y s) []) 0)%Z /\
       nth i (s_y s) 0%Z =
         nth (Z.to_nat (nth i (s_t s) 0%Z)) (nth i (s_potential_y s) []) 0%Z) /\
    train_test_division train_rate (nrows df0)
      (fst (permutation (nrows df0) g1)) = Ok (train_idx, test_idx) /\
    train_t out = Np.take 0%Z train_idx (s_t s) /\
    train_y out = Np.take 0%Z train_idx (s_y s) /\
    train_potential_y out = Np.take [] train_idx (s_potential_y s) /\
    (forall k, k < length train_idx ->
       nth k train_idx 0 < nrows df0 /\
       nth k (train_y out) 0%Z =
         (nth k (train_t out) 0 * nth 1 (nth k (train_potential_y out) []) 0
          + (1 - nth k (train_t out) 0)
            * nth 0 (nth k (train_potential_y out) []) 0)%Z /\
       nth k (train_y out) 0%Z =
         nth (Z.to_nat (nth k (train_t out) 0%Z))
             (nth k (train_potential_y out) []) 0%Z).
Proof.
  intros Hrun. destruct (preprocess_inv _ _ _ _ _ _ Hrun) as (s & g1 & Hp & Hd).
  destruct (prepare_inv ES _ _ _ _ _ Hp)
    as (df0 & df & df_new & Hread & Himp & _ & _ & _ & Hok).
  destruct (divide_division _ _ _ _ _ Hd) as (train_idx & test_idx & Hdiv & ->).
  assert (Hn : nrows df = nrows df0).
  { destruct (impute_wf _ _ (read_csv_wf ES _ _ _ Hread) Himp) as [_ ->].
    apply nrows_rename_columns. }
  pose proof (ok_no _ _ Hok) as Hno. rewrite Hn in Hno.
  pose proof (ok_t_length _ _ Hok) as Ht. rewrite Hn in Ht.
  assert (Hpy : length (s_potential_y s) = nrows df0).
  { destruct (ok_potential_y _ _ Hok) as (c0 & c1 & _ & _ & ->).
    rewrite length_map, length_seq. exact Hn. }
  assert (Hy : length (s_y s) = nrows df0).
  { rewrite (ok_y _ _ Hok), length_observe; congruence. }
  assert (Hrec : forall i, i < nrows df0 ->
            length (nth i (s_potential_y s) []) = 2 /\
            (nth i (s_t s) 0%Z = 0%Z \/ nth i (s_t s) 0%Z = 1%Z) /\
            nth i (s_y s) 0%Z =
              observed (nth i (s_t s) 0%Z) (nth i (s_potential_y s) []) /\
            nth i (s_y s) 0%Z =
              nth (Z.to_nat (nth i (s_t s) 0%Z))
                  (nth i (s_potential_y s) []) 0%Z).
  { intros i Hi.
    destruct (synthesized_outcome i Hok ltac:(rewrite Hno; exact Hi))
      as [Hyi Hbit].
    split.
    - destruct (ok_potential_y _ _ Hok) as (c0 & c1 & _ & _ & Heq).
      rewrite (nth_potential_y df s c0 c1 i Heq) by (rewrite Hn; exact Hi).
      reflexivity.
    - split; [exact Hbit|]. split; [exact Hyi|].
      rewrite Hyi. now apply observed_selects. }
  rewrite Hno in Hdiv.
  exists df0, s, g1, train_idx, test_idx.
  split; [exact Hread|]. split; [exact Hp|]. split; [exact Hno|].
  split; [exact Ht|]. split; [exact Hpy|]. split; [exact Hy|].
  split; [exact Hrec|]. split; [exact Hdiv|].
  split; [reflexivity|]. split; [reflexivity|]. split; [reflexivity|].
  intros k Hk. simpl.
  assert (Hi : nth k train_idx 0 < nrows df0).
  { eapply division_index_in_range; [|exact Hk].
    rewrite (train_test_division_app _ _ _ _ _ Hdiv).
    apply permutation_perm. }
  split; [exact Hi|].
  rewrite !nth_take by assumption.
  destruct (Hrec _ Hi) as (_ & _ & Hyi & Hsel). split; assumption.
Qed.

(** C7: [potential_y] has one row of two entries per record; the entry
    is 1 when the raw outcome label of the loaded table is below 9999
    and 0 otherwise, so every entry is 0 or 1; and [t] has one entry per
    record, each 0 or 1. *)
Theorem potential_outcomes_and_treatments_binary {E : Externals}
  (ES : ExternalsSpec E) (fn_csv : string) (fs : FileSystem) (g g' : rng)
  (s : synthesized) :
  prepare fn_csv fs g = Ok (s, g') ->
  exists df0 c0 c1,
    read_csv fn_csv fs = Ok df0 /\
    getitem "outcome(t=0)" (rename_columns df0) = Ok c0 /\
    getitem "outcome(t=1)" (rename_columns df0) = Ok c1 /\
    s_no s = nrows df0 /\
    length (s_potential_y s) = s_no s /\
    (forall i, i < s_no s ->
       nth i (s_potential_y s) [] =
         [ if PrimFloat.ltb (nth i c0 PrimFloat.nan) 9999 then 1%Z else 0%Z;
           if PrimFloat.ltb (nth i c1 PrimFloat.nan) 9999 then 1%Z else 0%Z ]) /\
    Forall (fun r => length r = 2 /\ Forall bit r) (s_potential_y s) /\
    length (s_t s) = s_no s /\
    Forall bit (s_t s).
Proof.
  intros Hp.
  destruct (prepare_inv ES _ _ _ _ _ Hp)
    as (df0 & df & df_new & Hread & Himp & _ & _ & Hwf & Hok).
  destruct (ok_potential_y _ _ Hok) as (c0 & c1 & H0 & H1 & Hpy).
  destruct (impute_columns _ _ Himp) as (_ & _ & Hrest & _).
  destruct (impute_wf _ _ (read_csv_wf ES _ _ _ Hread) Himp) as [_ Hn].
  rewrite nrows_rename_columns in Hn.
  exists df0, c0, c1.
  split; [exact Hread|].
  split; [rewrite <- H0; symmetry; apply Hrest, label_not_imputed;
          simpl; tauto|].
  split; [rewrite <- H1; symmetry; apply Hrest, label_not_imputed;
          simpl; tauto|].
  rewrite (ok_no _ _ Hok), (ok_t_length _ _ Hok), Hpy.
  split; [exact Hn|].
  split; [rewrite length_map; apply length_seq|].
  split.
  - intros i Hi.
    rewrite (nth_indep _ [] [binarize (nth 0 c0 PrimFloat.nan);
                             binarize (nth 0 c1 PrimFloat.nan)])
      by (rewrite length_map, length_seq; exact Hi).
    rewrite (map_nth (fun j => [binarize (nth j c0 PrimFloat.nan);
                                binarize (nth j c1 PrimFloat.nan)])).
    rewrite seq_nth by exact Hi. reflexivity.
  - split; [|split; [reflexivity | exact (ok_t_bits _ _ Hok)]].
    apply Forall_forall. intros r Hr.
    apply in_map_iff in Hr as (i & <- & _).
    split; [reflexivity|].
    constructor; [apply binarize_bit|].
    constructor; [apply binarize_bit | constructor].
Qed.

(* ================================================================== *)
(** ** The returned features (claims C1 and C2) *)
(* ================================================================== *)

Lemma length_row (i : nat) (df : DataFrame) : length (row i df) = length df.
Proof. apply length_map. Qed.

(** The entry of a row at the position of a column is the entry of that
    column. *)
Lemma getitem_get_loc (name : string) (df : DataFrame) (c : Series) :
  getitem name df = Ok c ->
  exists j, get_loc name df = Some j /\ j < length df /\
            forall i, nth j (row i df) PrimFloat.nan = nth i c PrimFloat.nan.
Proof.
  induction df as [|[l c0] df IH]; simpl; [discriminate|].
  destruct (label_eqb l (Col name)); intros Hg.
  - injection Hg as <-. exists 0.
    split; [reflexivity|]. split; [lia|]. reflexivity.
  - destruct (IH Hg) as (j & -> & Hj & Hrow).
    exists (S j). split; [reflexivity|]. split; [lia|]. exact Hrow.
Qed.

Lemma in_take_values (df : DataFrame) (idx : list nat) (r : list float) :
  (forall i, In i idx -> i < nrows df) ->
  In r (Np.take [] idx (values df)) ->
  exists i, In i idx /\ i < nrows df /\ r = row i df.
Proof.
  intros Hidx Hr. unfold Np.take in Hr.
  apply in_map_iff in Hr as (i & <- & Hi).
  exists i. repeat split; auto.
  apply nth_values. auto.
Qed.

(** C2: whenever [preprocess] returns, [train_x] and [test_x] are rows of
    [df.values], the loaded table after imputation, picked by the train
    and the test indices. Each returned row has one entry per column of
    the loaded file, and at the positions of [outcome(t=0)] and
    [outcome(t=1)] it holds the raw outcome labels of its record. The
    one-hot table [df_new] plays no part: with any other frame in its
    place the function returns the same. *)
Theorem features_are_raw_rows {E : Externals} (ES : ExternalsSpec E)
  (fn_csv : string) (train_rate : float) (fs : FileSystem) (g g' : rng)
  (out : outputs) :
  preprocess fn_csv train_rate fs g = Ok (out, g') ->
  exists df0 df df_new train_idx test_idx j0 j1 c0 c1,
    read_csv fn_csv fs = Ok df0 /\
    impute (rename_columns df0) = Ok df /\
    build_features df = Ok df_new /\
    train_x out = Np.take [] train_idx (values df) /\
    test_x out = Np.take [] test_idx (values df) /\
    Permutation (train_idx ++ test_idx) (seq 0 (nrows df)) /\
    get_loc "outcome(t=0)" df = Some j0 /\
    get_loc "outcome(t=1)" df = Some j1 /\
    getitem "outcome(t=0)" (rename_columns df0) = Ok c0 /\
    getitem "outcome(t=1)" (rename_columns df0) = Ok c1 /\
    (forall r, In r (train_x out ++ test_x out) ->
       exists i, i < nrows df /\ r = row i df /\
                 length r = length df0 /\
                 nth j0 r PrimFloat.nan = nth i c0 PrimFloat.nan /\
                 nth j1 r PrimFloat.nan = nth i c1 PrimFloat.nan) /\
    (forall other : DataFrame,
       ('(s, g1) <- synthesize df other g ;; divide train_rate s g1)
       = Ok (out, g')).
Proof.
  intros Hrun.
  destruct (preprocess_inv _ _ _ _ _ _ Hrun) as (s & g1 & Hp & Hd).
  destruct (prepare_inv ES _ _ _ _ _ Hp)
    as (df0 & df & df_new & Hread & Himp & Hbuild & Hsyn & Hwf & Hok).
  destruct (divide_inv ES _ _ _ _ _ Hd)
    as (train_idx & test_idx & _ & Hperm & Hout).
  rewrite (ok_no _ _ Hok), (ok_x _ _ Hok) in *.
  destruct (ok_potential_y _ _ Hok) as (c0 & c1 & H0 & H1 & _).
  destruct (getitem_get_loc _ _ _ H0) as (j0 & Hj0 & _ & Hrow0).
  destruct (getitem_get_loc _ _ _ H1) as (j1 & Hj1 & _ & Hrow1).
  destruct (impute_columns _ _ Himp) as (_ & _ & Hrest & Hcols).
  exists df0, df, df_new, train_idx, test_idx, j0, j1, c0, c1.
  split; [exact Hread|]. split; [exact Himp|]. split; [exact Hbuild|].
  split; [rewrite Hout; reflexivity|]. split; [rewrite Hout; reflexivity|].
  split; [exact Hperm|]. split; [exact Hj0|]. split; [exact Hj1|].
  split; [rewrite <- H0; symmetry; apply Hrest, label_not_imputed;
          simpl; tauto|].
  split; [rewrite <- H1; symmetry; apply Hrest, label_not_imputed;
          simpl; tauto|].
  split.
  - intros r Hr.
    assert (Hrange : forall i, In i (train_idx ++ test_idx) -> i < nrows df).
    { intros i Hi. apply (Permutation_in _ Hperm) in Hi.
      apply in_seq in Hi. lia. }
    assert (Hin : In r (Np.take [] (train_idx ++ test_idx) (values df))).
    { rewrite Hout in Hr. simpl in Hr. unfold Np.take in *.
      rewrite map_app. exact Hr. }
    apply in_take_values in Hin as (i & _ & Hi & ->); [|exact Hrange].
    exists i. split; [exact Hi|]. split; [reflexivity|].
    split; [|split; [apply Hrow0 | apply Hrow1]].
    rewrite length_row.
    assert (Hlen : length (columns df) = length (columns (rename_columns df0)))
      by now rewrite Hcols.
    unfold columns, rename_columns in Hlen. now rewrite !length_map in Hlen.
  - intros other.
    replace (synthesize df other g) with (synthesize df df_new g)
      by reflexivity.
    rewrite Hsyn. simpl. exact Hd.
Qed.

Lemma features_are_raw_rows_witness :
  exists out g',
    preprocess (E := Fixture.double) Fixture.path 0.8 Fixture.disk O
      = Ok (out, g') /\
    forall r, In r (train_x out ++ test_x out) -> length r = 32.
Proof.
  eexists. eexists. split; [vm_compute; reflexivity|].
  intros r Hr.
  destruct (features_are_raw_rows double_spec Fixture.path 0.8 Fixture.disk
              O _ _ eq_refl)
    as (df0 & df & df_new & train_idx & test_idx & j0 & j1 & c0 & c1
        & Hread & _ & _ & _ & _ & _ & _ & _ & _ & _ & Hrows & _).
  destruct (Hrows r Hr) as (i & _ & _ & Hlen & _).
  rewrite Hlen. vm_compute in Hread. injection Hread as <-. reflexivity.
Defined.

(** The columns of the one-hot table of the feature builder: the
    continuous fields, the binary fields, and one indicator per level of
    each categorical field. *)
Lemma select_columns (names : list string) (df d : DataFrame) :
  select names df = Ok d -> columns d = map Col names.
Proof.
  unfold select. revert d. induction names as [|n names IH]; intros d; simpl.
  - intros Hd. now injection Hd as <-.
  - intros Hd. bind_inv Hd. bind_inv Ha. injection Ha as <-.
    bind_inv Hd. injection Hd as <-. simpl. f_equal. now apply IH.
Qed.

Lemma columns_get_dummies (prefix : string) (s : Series) :
  columns (get_dummies prefix s) = map (Indicator prefix) (levels s).
Proof. unfold columns, get_dummies. now rewrite map_map. Qed.

Lemma build_features_columns (df df_new : DataFrame) :
  build_features df = Ok df_new ->
  exists a p r,
    getitem "adequacy" df = Ok a /\ getitem "pldel" df = Ok p /\
    getitem "resstatb" df = Ok r /\
    columns df_new =
      map Col con_list ++ map Col bin_list
      ++ map (Indicator "adequacy") (levels a)
      ++ map (Indicator "pldel") (levels p)
      ++ map (Indicator "resstatb") (levels r).
Proof.
  unfold build_features. intros Hb. bind_inv Hb. rename a into d.
  apply select_columns in Ha. rewrite map_app in Ha.
  unfold cat_list, other_list2 in Hb. cbn [for_each] in Hb.
  unfold add_dummies, concat_columns in Hb.
  destruct (getitem "adequacy" df) as [a|ea]; [|discriminate Hb].
  cbn [Py.bind] in Hb.
  destruct (getitem "pldel" df) as [p|ep]; [|discriminate Hb].
  cbn [Py.bind] in Hb.
  destruct (getitem "resstatb" df) as [r|er]; [|discriminate Hb].
  cbn [Py.bind] in Hb. injection Hb as <-.
  exists a, p, r. repeat split; auto.
  unfold columns in *. rewrite !map_app, Ha.
  fold (columns (get_dummies "adequacy" a)).
  fold (columns (get_dummies "pldel" p)).
  fold (columns (get_dummies "resstatb" r)).
  rewrite !columns_get_dummies, <- !app_assoc. reflexivity.
Qed.

(** C1 at the fixture: the feature builder assembles the one-hot table
    of 33 columns in the order the claim gives, and the rows
    [preprocess] returns are not its rows: they are the 32 raw columns
    of the loaded table, outcome labels included. *)
Lemma feature_matrix_ignores_one_hot_table :
  exists out g' df_new,
    preprocess (E := Fixture.double) Fixture.path 0.8 Fixture.disk O
      = Ok (out, g') /\
    build_features Fixture.imputed = Ok df_new /\
    columns df_new =
      map Col con_list ++ map Col bin_list
      ++ [Indicator "adequacy" 1; Indicator "adequacy" 2;
          Indicator "adequacy" 3; Indicator "pldel" 1; Indicator "pldel" 2;
          Indicator "resstatb" 1] /\
    Forall (fun r => length r = 33) (values df_new) /\
    Forall (fun r => length r = 32) (train_x out ++ test_x out) /\
    train_x out = Np.take [] [3; 2; 1] (values Fixture.imputed) /\
    train_x out <> Np.take [] [3; 2; 1] (values df_new) /\
    nth 30 (nth 1 (train_x out) []) PrimFloat.nan = 9999%float /\
    nth 31 (nth 1 (train_x out) []) PrimFloat.nan = 30%float.
Proof.
  eexists. eexists. eexists.
  split; [vm_compute; reflexivity|].
  split; [vm_compute; reflexivity|].
  split; [reflexivity|].
  split; [vm_compute; repeat constructor|].
  split; [vm_compute; repeat constructor|].
  split; [reflexivity|].
  split; [|split; reflexivity].
  vm_compute. intros Heq. discriminate Heq.
Qed.

(* ================================================================== *)
(** ** Witnesses for the outcome claims *)
(* ================================================================== *)

Lemma observed_outcome_selects_potential_witness :
  exists out g' df0 s g1 train_idx,
    preprocess (E := Fixture.double) Fixture.path 0.8 Fixture.disk O
      = Ok (out, g') /\
    read_csv (E := Fixture.double) Fixture.path Fixture.disk = Ok df0 /\
    prepare (E := Fixture.double) Fixture.path Fixture.disk O = Ok (s, g1) /\
    nrows df0 = 4 /\
    s_no s = nrows df0 /\
    length (s_t s) = nrows df0 /\
    length (s_potential_y s) = nrows df0 /\
    length (s_y s) = nrows df0 /\
    (forall i, i < nrows df0 ->
       nth i (s_y s) 0%Z =
         nth (Z.to_nat (nth i (s_t s) 0%Z)) (nth i (s_potential_y s) []) 0%Z) /\
    length train_idx = 3 /\
    train_y out = Np.take 0%Z train_idx (s_y s) /\
    (forall k, k < length train_idx ->
       nth k (train_y out) 0%Z =
         nth (Z.to_nat (nth k (train_t out) 0%Z))
             (nth k (train_potential_y out) []) 0%Z).
Proof.
  assert (Hrun : exists out g',
            preprocess (E := Fixture.double) Fixture.path 0.8 Fixture.disk O
              = Ok (out, g'))
    by (eexists; eexists; vm_compute; reflexivity).
  destruct Hrun as (out & g' & Hrun).
  destruct (observed_outcome_selects_potential double_spec Fixture.path 0.8
              Fixture.disk O g' out Hrun)
    as (df0 & s & g1 & train_idx & test_idx & Hread & Hp & Hno & Ht & Hpy
        & Hy & Hrec & Hdiv & _ & Htrain_y & _ & Htrain).
  exists out, g', df0, s, g1, train_idx.
  split; [exact Hrun|].
  split; [exact Hread|]. split; [exact Hp|].
  assert (Hdf0 : df0 = Fixture.raw).
  { vm_compute in Hread. injection Hread as <-. reflexivity. }
  assert (Hn : nrows df0 = 4) by (rewrite Hdf0; reflexivity).
  split; [exact Hn|].
  split; [exact Hno|]. split; [exact Ht|]. split; [exact Hpy|].
  split; [exact Hy|].
  split; [intros i Hi; apply (Hrec i Hi)|].
  split.
  - assert (Hg1 : g1 = 3).
    { vm_compute in Hp. injection Hp as _ <-. reflexivity. }
    rewrite Hn, Hg1 in Hdiv. vm_compute in Hdiv.
    injection Hdiv as <- _. reflexivity.
  - split; [exact Htrain_y|]. intros k Hk. apply (Htrain k Hk).
Defined.

Lemma potential_outcomes_and_treatments_binary_witness :
  exists s g',
    prepare (E := Fixture.double) Fixture.path Fixture.disk O = Ok (s, g') /\
    Forall (fun r => length r = 2 /\ Forall bit r) (s_potential_y s) /\
    Forall bit (s_t s).
Proof.
  eexists. eexists. split; [vm_compute; reflexivity|].
  destruct (potential_outcomes_and_treatments_binary double_spec Fixture.path
              Fixture.disk O _ _ eq_refl)
    as (df0 & c0 & c1 & _ & _ & _ & _ & _ & _ & Hpy & _ & Ht).
  split; [exact Hpy | exact Ht].
Defined.

(* ================================================================== *)
(** ** Degenerate rates (claim C10) *)
(* ================================================================== *)

Lemma take_all {B : Type} (d : B) (a : list B) :
  Np.take d (seq 0 (length a)) a = a.
Proof.
  apply (nth_ext _ _ d d).
  - rewrite length_take. apply length_seq.
  - intros n Hn. rewrite length_take, length_seq in Hn.
    rewrite nth_take by (rewrite length_seq; exact Hn).
    now rewrite seq_nth.
Qed.

(** Taking the entries at a permutation of all the indices permutes the
    array. *)
Lemma take_permutation {B : Type} (d : B) (idx : list nat) (a : list B) :
  Permutation idx (seq 0 (length a)) -> Permutation (Np.take d idx a) a.
Proof.
  intros Hperm. rewrite <- (take_all d a) at 2.
  unfold Np.take. now apply Permutation_map.
Qed.

Lemma slice_to_zero {A : Type} (a : list A) : Py.slice_to 0 a = [].
Proof. reflexivity. Qed.

Lemma slice_from_zero {A : Type} (a : list A) : Py.slice_from 0 a = a.
Proof. reflexivity. Qed.

Lemma slice_bound_length (n : nat) : Py.slice_bound (Z.of_nat n) n = n.
Proof.
  unfold Py.slice_bound.
  destruct (Z.of_nat n <? 0)%Z eqn:E; [apply Z.ltb_lt in E; lia|]. lia.
Qed.

Lemma slice_to_length {A : Type} (a : list A) :
  Py.slice_to (Z.of_nat (length a)) a = a.
Proof. unfold Py.slice_to. rewrite slice_bound_length. apply firstn_all. Qed.

Lemma slice_from_length {A : Type} (a : list A) :
  Py.slice_from (Z.of_nat (length a)) a = [].
Proof. unfold Py.slice_from. rewrite slice_bound_length. apply skipn_all. Qed.

Lemma synthesized_lengths (df : DataFrame) (s : synthesized) :
  synthesized_ok df s ->
  length (s_x s) = s_no s /\ length (s_t s) = s_no s /\
  length (s_y s) = s_no s /\ length (s_potential_y s) = s_no s.
Proof.
  intros Hok. rewrite (ok_no _ _ Hok).
  assert (Hpy : length (s_potential_y s) = nrows df).
  { destruct (ok_potential_y _ _ Hok) as (c0 & c1 & _ & _ & ->).
    rewrite length_map. apply length_seq. }
  pose proof (ok_t_length _ _ Hok) as Ht.
  repeat split; auto.
  - rewrite (ok_x _ _ Hok). apply length_values.
  - rewrite (ok_y _ _ Hok), length_observe; congruence.
Qed.

(** C10: on an input that [preprocess] brings to the division, the rates
    0 and 1 raise nothing. With the rate 0 the four training arrays are
    empty and the test arrays hold all the [no] records; with the rate 1
    the two test arrays are empty and the training arrays hold all the
    [no] records. (The record count is below 2^53, where [float(no)] is
    exact.) *)
Theorem degenerate_rates_split {E : Externals} (ES : ExternalsSpec E)
  (fn_csv : string) (fs : FileSystem) (g g1 : rng) (s : synthesized) :
  prepare fn_csv fs g = Ok (s, g1) ->
  (Z.of_nat (s_no s) < 2 ^ 53)%Z ->
  (exists out g2,
     preprocess fn_csv 0 fs g = Ok (out, g2) /\
     train_x out = [] /\ train_t out = [] /\ train_y out = [] /\
     train_potential_y out = [] /\
     length (test_x out) = s_no s /\
     length (test_potential_y out) = s_no s /\
     Permutation (test_x out) (s_x s) /\
     Permutation (test_potential_y out) (s_potential_y s)) /\
  (exists out g2,
     preprocess fn_csv 1 fs g = Ok (out, g2) /\
     test_x out = [] /\ test_potential_y out = [] /\
     length (train_x out) = s_no s /\
     Permutation (train_x out) (s_x s) /\
     Permutation (train_t out) (s_t s) /\
     Permutation (train_y out) (s_y s) /\
     Permutation (train_potential_y out) (s_potential_y s)).
Proof.
  intros Hp Hno.
  destruct (prepare_inv ES _ _ _ _ _ Hp)
    as (df0 & df & df_new & _ & _ & _ & _ & _ & Hok).
  destruct (synthesized_lengths _ _ Hok) as (Hx & Ht & Hy & Hpy).
  pose proof (permutation_perm (s_no s) g1) as Hperm.
  assert (Hlen : length (fst (permutation (s_no s) g1)) = s_no s).
  { rewrite (Permutation_length Hperm). apply length_seq. }
  unfold preprocess. rewrite Hp. cbn [Py.bind].
  unfold divide, train_test_division.
  destruct (permutation (s_no s) g1) as [idx g2]. simpl in Hperm, Hlen.
  split.
  - rewrite (train_size_zero _ Hno). cbn [Py.bind].
    rewrite slice_to_zero, slice_from_zero.
    eexists _, g2. split; [reflexivity|]. simpl.
    rewrite !length_take.
    repeat split; auto; apply take_permutation; congruence.
  - rewrite (train_size_one _ Hno). cbn [Py.bind].
    assert (Hto : Py.slice_to (Z.of_nat (s_no s)) idx = idx)
      by (rewrite <- Hlen; apply slice_to_length).
    assert (Hfrom : Py.slice_from (Z.of_nat (s_no s)) idx = [])
      by (rewrite <- Hlen; apply slice_from_length).
    rewrite Hto, Hfrom.
    eexists _, g2. split; [reflexivity|]. simpl.
    rewrite !length_take.
    repeat split; auto; apply take_permutation; congruence.
Qed.

Lemma degenerate_rates_split_witness :
  (exists out g2,
     preprocess (E := Fixture.double) Fixture.path 0 Fixture.disk O
       = Ok (out, g2) /\
     train_x out = [] /\ length (test_x out) = 4) /\
  (exists out g2,
     preprocess (E := Fixture.double) Fixture.path 1 Fixture.disk O
       = Ok (out, g2) /\
     test_x out = [] /\ length (train_x out) = 4).
Proof.
  destruct (degenerate_rates_split double_spec Fixture.path Fixture.disk O
              _ _ eq_refl)
    as [(out0 & g0 & H0 & Hx0 & _ & _ & _ & Hn0 & _)
        (out1 & g1 & H1 & Hx1 & _ & Hn1 & _)];
    [vm_compute; reflexivity|].
  split; [exists out0, g0 | exists out1, g1]; repeat split; assumption.
Defined.

(* ================================================================== *)
(** * Further properties of the module *)
(* ================================================================== *)

(** ** The loader (lines 57-62) *)

(** The characters of a name. *)
Definition chars (s : string) : list ascii := list_ascii_of_string s.

(** The first byte of the right single quote in UTF-8. *)
Definition quote_lead : ascii := ascii_of_nat 226.

(** A replacement by the empty string only drops characters. *)
Lemma remove_aux_chars (pat : string) (s : string) :
  forall (skip : nat) (c : ascii),
    In c (chars (Py.remove_aux pat skip s)) -> In c (chars s).
Proof.
  induction s as [|a s IH]; intros skip c; [simpl; auto|].
  cbn [Py.remove_aux]. destruct skip as [|k].
  - destruct (String.prefix pat (String a s)).
    + intros Hin. right. eapply IH. exact Hin.
    + simpl. intros [Heq|Hin]; [now left | right; eapply IH; exact Hin].
  - intros Hin. right. eapply IH. exact Hin.
Qed.

Lemma remove_chars (pat s : string) (c : ascii) :
  In c (chars (Py.remove pat s)) -> In c (chars s).
Proof.
  unfold Py.remove. destruct pat; [auto | apply remove_aux_chars].
Qed.

(** Replacing a one-character pattern leaves no occurrence of it. *)
Lemma remove_char_gone (a : ascii) (s : string) :
  ~ In a (chars (Py.remove (String a EmptyString) s)).
Proof.
  unfold Py.remove. induction s as [|b s IH]; simpl; [auto|].
  destruct (ascii_dec a b) as [->|Hab]; simpl.
  - destruct s; exact IH.
  - intros [Heq|Hin]; [congruence | contradiction].
Qed.

(** A name that holds no character a pattern starts with is left as it
    is. *)
Lemma remove_aux_absent (a : ascii) (pat s : string) :
  ~ In a (chars s) -> Py.remove_aux (String a pat) 0 s = s.
Proof.
  induction s as [|b s IH]; simpl; [reflexivity|].
  intros Hnot. destruct (ascii_dec a b) as [->|Hab].
  - exfalso. apply Hnot. now left.
  - f_equal. apply IH. intros Hin. apply Hnot. now right.
Qed.

Lemma values_rename_columns (df : DataFrame) :
  values (rename_columns df) = values df.
Proof.
  unfold values. rewrite nrows_rename_columns.
  apply map_ext. intros i. unfold row, rename_columns.
  rewrite map_map. reflexivity.
Qed.

(** X1: the loader renames and does nothing else: the cleaned frame has
    the values, the shape and the columns' contents of the parsed one,
    and its labels are the cleaned labels in the same order. No cleaned
    name holds an apostrophe, and a name without an apostrophe and
    without the lead byte of the right single quote is kept as it is. *)
Theorem loader_only_renames (df : DataFrame) :
  values (rename_columns df) = values df /\
  shape (rename_columns df) = shape df /\
  map snd (rename_columns df) = map snd df /\
  columns (rename_columns df) = map clean_label (columns df) /\
  (forall name, ~ In "'"%char (chars (clean_name name))) /\
  (forall name,
     ~ In "'"%char (chars name) -> ~ In quote_lead (chars name) ->
     clean_name name = name).
Proof.
  split; [apply values_rename_columns|].
  split; [unfold shape, rename_columns;
          now rewrite nrows_rename_columns, length_map|].
  split; [unfold rename_columns; rewrite map_map; reflexivity|].
  split; [unfold columns, rename_columns; now rewrite !map_map|].
  split.
  - intros name Hq. unfold clean_name in Hq.
    apply remove_chars in Hq. revert Hq. apply remove_char_gone.
  - intros name Hq Hlead. unfold clean_name, Py.remove.
    rewrite (remove_aux_absent "'"%char EmptyString name Hq).
    apply (remove_aux_absent quote_lead _ name Hlead).
Qed.

Lemma loader_only_renames_witness : clean_name "dmage" = "dmage".
Proof.
  apply (proj2 (proj2 (proj2 (proj2 (proj2 (loader_only_renames []))))));
    vm_compute; intros H;
    repeat (destruct H as [H|H]; [discriminate H|]); exact H.
Defined.

(** ** Missing columns (lines 97-115) *)

(** The 32 columns [preprocess] reads by name. *)
Definition required_columns : list string :=
  con_list ++ bin_list ++ cat_list ++ label_list.

(** A stand-in for the collaborators whose parser returns a given
    frame, whatever the bytes. *)
Definition double_of (df0 : DataFrame) : Externals := {|
  rng := nat;
  seed := fun _ => O;
  uniform := fun low _ n g => (repeat low n, S g);
  normal := fun loc _ n g => (repeat loc n, S g);
  binomial := fun _ p g =>
    if forallb Fixture.valid_probability p
    then Ok (map (fun q => if PrimFloat.leb 0.5 q then 1%Z else 0%Z) p, S g)
    else Raise ValueError;
  permutation := fun n g => (rev (seq 0 n), S g);
  expit := fun z => if PrimFloat.ltb z (-150) then 0.25%float else 0.75%float;
  parse_csv := fun _ => Ok df0;
  download_if_needed := fun p _ fs =>
    match fs p with
    | Some _ => Ok fs
    | None => Raise OtherError
    end
|}.

Lemma getitem_Raise (name : string) (df : DataFrame) (e : exn) :
  getitem name df = Raise e -> e = KeyError name.
Proof.
  induction df as [|[l c] df IH]; simpl.
  - intros He. now injection He as <-.
  - destruct (label_eqb l (Col name)); [discriminate | exact IH].
Qed.

Lemma getitem_cases (name : string) (df : DataFrame) :
  (exists s, getitem name df = Ok s) \/
  getitem name df = Raise (KeyError name).
Proof.
  destruct (getitem name df) as [s|e] eqn:Hg.
  - left. now exists s.
  - right. now rewrite (getitem_Raise _ _ _ Hg).
Qed.

Lemma imputed_lists_disjoint (n : string) :
  In n medrisk_list -> In n other_list -> False.
Proof.
  intros H1 H2. simpl in H1, H2.
  repeat (destruct H1 as [<-|H1];
          [repeat (destruct H2 as [H2|H2]; [discriminate H2|]); exact H2|]).
  exact H1.
Qed.

(** A loop of column updates stops at the first name the frame lacks. *)
Lemma for_each_first_missing (f : Series -> result Series)
  (pre : list string) (feat : string) (post : list string) :
  (forall s, exists s', f s = Ok s') ->
  forall df,
    (forall n, In n pre -> exists s, getitem n df = Ok s) ->
    getitem feat df = Raise (KeyError feat) ->
    for_each (column_update f) (pre ++ feat :: post) df
    = Raise (KeyError feat).
Proof.
  intros Hf. induction pre as [|n pre IH]; intros df Hpre Hfeat.
  - simpl. unfold column_update. rewrite Hfeat. reflexivity.
  - destruct (Hpre n (or_introl eq_refl)) as [s Hs].
    destruct (Hf s) as [s' Hs'].
    cbn [app for_each]. unfold column_update at 1.
    rewrite Hs. cbn [Py.bind]. rewrite Hs'. cbn [Py.bind].
    apply IH.
    + intros n' Hin. destruct (string_dec n' n) as [->|Hneq].
      * exists s'. apply getitem_setitem_same.
      * rewrite getitem_setitem_other by assumption. apply Hpre. now right.
    + rewrite getitem_setitem_other; [assumption|].
      intros ->. rewrite Hs in Hfeat. discriminate.
Qed.

Lemma impute_first_missing (df : DataFrame) (pre : list string)
  (feat : string) (post : list string) :
  medrisk_list ++ other_list = pre ++ feat :: post ->
  (forall n, In n pre -> exists s, getitem n df = Ok s) ->
  getitem feat df = Raise (KeyError feat) ->
  impute df = Raise (KeyError feat).
Proof.
  intros Hsplit Hpre Hfeat. unfold impute.
  rewrite impute_medrisk_update, impute_other_update.
  apply app_eq_app in Hsplit as [l [[Hmed Hrest]|[Hpre' Hoth]]].
  - destruct l as [|a l].
    + rewrite app_nil_r in Hmed. simpl in Hrest.
      destruct (for_each_column_update_total impute_mode medrisk_list
                  impute_mode_total df) as [df1 H1].
      { intros n Hn. apply Hpre. now rewrite <- Hmed. }
      rewrite H1. cbn [Py.bind]. rewrite <- Hrest.
      apply (for_each_first_missing _ [] feat post).
      * intros s. now exists (impute_mean s).
      * intros n [].
      * destruct (for_each_column_update _ _
                    (NoDup_app_remove_r _ _ imputed_names_NoDup) _ _ H1)
          as (_ & Hout & _).
        rewrite Hout; [assumption|].
        intros Hm. apply (imputed_lists_disjoint feat Hm).
        rewrite <- Hrest. now left.
    + injection Hrest as <- Hrest. rewrite Hmed.
      rewrite (for_each_first_missing impute_mode pre feat l
                 impute_mode_total df Hpre Hfeat).
      reflexivity.
  - destruct (for_each_column_update_total impute_mode medrisk_list
                impute_mode_total df) as [df1 H1].
    { intros n Hn. apply Hpre. rewrite Hpre'. apply in_or_app. now left. }
    rewrite H1. cbn [Py.bind]. rewrite Hoth.
    destruct (for_each_column_update _ _
                (NoDup_app_remove_r _ _ imputed_names_NoDup) _ _ H1)
      as (_ & Hout & _).
    apply for_each_first_missing.
    + intros s. now exists (impute_mean s).
    + intros n Hn. rewrite Hout.
      * apply Hpre. rewrite Hpre'. apply in_or_app. now right.
      * intros Hm. apply (imputed_lists_disjoint n Hm).
        rewrite Hoth. apply in_or_app. now left.
    + rewrite Hout; [assumption|].
      intros Hm. apply (imputed_lists_disjoint feat Hm).
      rewrite Hoth. apply in_or_app. right. now left.
Qed.

(** X2: when the table lacks one of the 24 imputed columns,
    [preprocess] raises the [KeyError] of the first one missing, in the
    order of [medrisk_list] and then [other_list], whatever the rate and
    the generator. *)
Theorem first_missing_imputed_column_raises {E : Externals}
  (fn_csv : string) (train_rate : float) (fs : FileSystem) (g : rng)
  (df0 : DataFrame) (pre : list string) (feat : string)
  (post : list string) :
  read_csv fn_csv fs = Ok df0 ->
  medrisk_list ++ other_list = pre ++ feat :: post ->
  (forall n, In n pre -> exists s, getitem n (rename_columns df0) = Ok s) ->
  getitem feat (rename_columns df0) = Raise (KeyError feat) ->
  impute (rename_columns df0) = Raise (KeyError feat) /\
  preprocess fn_csv train_rate fs g = Raise (KeyError feat).
Proof.
  intros Hread Hsplit Hpre Hfeat.
  pose proof (impute_first_missing _ _ _ _ Hsplit Hpre Hfeat) as Himp.
  split; [exact Himp|].
  unfold preprocess, prepare. rewrite Hread. cbn [Py.bind].
  rewrite Himp. reflexivity.
Qed.

Lemma first_missing_imputed_column_raises_witness :
  preprocess (E := double_of [(Col "'anemia'", [0; 8]%float);
                              (Col "lung", [0; 0]%float)])
    Fixture.path 0.8 Fixture.disk O
  = Raise (KeyError "cardiac").
Proof.
  apply (first_missing_imputed_column_raises
           (E := double_of [(Col "'anemia'", [0; 8]%float);
                            (Col "lung", [0; 0]%float)])
           Fixture.path 0.8 Fixture.disk O
           [(Col "'anemia'", [0; 8]%float); (Col "lung", [0; 0]%float)]
           ["anemia"] "cardiac" (tl (tl (medrisk_list ++ other_list)))).
  - reflexivity.
  - reflexivity.
  - intros n [<-|[]]. eexists. reflexivity.
  - reflexivity.
Defined.

Lemma select_present (names : list string) (df d : DataFrame) :
  select names df = Ok d ->
  forall n, In n names -> exists s, getitem n df = Ok s.
Proof.
  unfold select. revert d. induction names as [|a names IH]; intros d Hd n;
    [intros []|].
  cbn [mapM] in Hd. destruct (getitem a df) as [s|e] eqn:Ha;
    [|discriminate Hd].
  cbn [Py.bind] in Hd.
  destruct (mapM (fun n0 => c <- getitem n0 df;; Ok (Col n0, c)) names)
    as [d'|e] eqn:Hrest; [|discriminate Hd].
  intros [<-|Hin]; [now exists s | eapply IH; eauto].
Qed.

(** The imputer neither adds nor drops a column. *)
Lemma impute_presence (df df' : DataFrame) (name : string) :
  impute df = Ok df' ->
  (exists s, getitem name df = Ok s) <-> (exists s, getitem name df' = Ok s).
Proof.
  intros Hrun. destruct (impute_columns _ _ Hrun) as (Hmed & Hoth & Hrest & _).
  destruct (in_dec string_dec name medrisk_list) as [Hm|Hm].
  { destruct (Hmed _ Hm) as (s & s' & Hg & _ & Hg').
    split; intros _; eauto. }
  destruct (in_dec string_dec name other_list) as [Ho|Ho].
  { destruct (Hoth _ Ho) as (s & Hg & Hg'). split; intros _; eauto. }
  rewrite Hrest; [reflexivity|].
  intros Hin. apply in_app_or in Hin. tauto.
Qed.

Lemma build_features_present (df df_new : DataFrame) :
  build_features df = Ok df_new ->
  forall n, In n (con_list ++ bin_list ++ cat_list) ->
    exists s, getitem n df = Ok s.
Proof.
  intros Hb n Hn.
  destruct (build_features_columns _ _ Hb) as (a & p & r & Ha & Hp & Hr & _).
  rewrite app_assoc in Hn. apply in_app_or in Hn as [Hn|Hn].
  - unfold build_features in Hb.
    destruct (select (con_list ++ bin_list) df) as [d|e] eqn:Hs;
      [|discriminate Hb].
    eapply select_present; eassumption.
  - simpl in Hn. destruct Hn as [<-|[<-|[<-|[]]]]; eauto.
Qed.

(** X3: [preprocess] returns only on a table that has all the 32 columns
    it reads by name, each with one entry per record. *)
Theorem returns_only_with_all_columns {E : Externals} (ES : ExternalsSpec E)
  (fn_csv : string) (train_rate : float) (fs : FileSystem) (g g' : rng)
  (out : outputs) :
  preprocess fn_csv train_rate fs g = Ok (out, g') ->
  exists df0,
    read_csv fn_csv fs = Ok df0 /\
    forall name, In name required_columns ->
      exists s, getitem name (rename_columns df0) = Ok s /\
                length s = nrows df0.
Proof.
  intros Hrun.
  destruct (preprocess_inv _ _ _ _ _ _ Hrun) as (s & g1 & Hp & _).
  destruct (prepare_inv ES _ _ _ _ _ Hp)
    as (df0 & df & df_new & Hread & Himp & Hbuild & _ & _ & Hok).
  exists df0. split; [exact Hread|].
  intros name Hname.
  assert (Hdf : exists c, getitem name df = Ok c).
  { unfold required_columns in Hname. rewrite !app_assoc in Hname.
    apply in_app_or in Hname as [Hname|Hname].
    - eapply build_features_present; [exact Hbuild|].
      now rewrite app_assoc.
    - destruct (ok_potential_y _ _ Hok) as (c0 & c1 & H0 & H1 & _).
      simpl in Hname. destruct Hname as [<-|[<-|[]]]; eauto. }
  apply (impute_presence _ _ name Himp) in Hdf as [c Hc].
  exists c. split; [exact Hc|].
  rewrite <- nrows_rename_columns.
  eapply getitem_length; [|exact Hc].
  apply wf_frame_all_length. eapply read_csv_wf; eassumption.
Qed.

Lemma returns_only_with_all_columns_witness :
  exists df0,
    read_csv (E := Fixture.double) Fixture.path Fixture.disk = Ok df0 /\
    forall name, In name required_columns ->
      exists s, getitem name (rename_columns df0) = Ok s /\
                length s = nrows df0.
Proof.
  exact (returns_only_with_all_columns double_spec Fixture.path 0.8
           Fixture.disk O _ _ eq_refl).
Defined.

(** ** The feature builder (lines 103-106) *)

Lemma insert_level_In (v w : float) (ls : list float) :
  In w (Pd.insert_level v ls) -> w = v \/ In w ls.
Proof.
  induction ls as [|u ls IH]; simpl.
  - intros [<-|[]]. now left.
  - destruct (PrimFloat.eqb v u); [now right|].
    destruct (PrimFloat.ltb v u).
    + intros [<-|Hin]; [now left | now right].
    + intros [<-|Hin]; [right; now left|].
      destruct (IH Hin) as [->|Hin']; [now left | right; now right].
Qed.

Lemma insert_level_keeps (v w : float) (ls : list float) :
  In w ls -> In w (Pd.insert_level v ls).
Proof.
  induction ls as [|u ls IH]; simpl; [intros []|].
  destruct (PrimFloat.eqb v u); [auto|].
  destruct (PrimFloat.ltb v u).
  - intros Hin. now right.
  - intros [<-|Hin]; [now left | right; auto].
Qed.

Lemma insert_level_has (v : float) (ls : list float) :
  F64.notna v = true ->
  exists w, In w (Pd.insert_level v ls) /\ PrimFloat.eqb v w = true.
Proof.
  intros Hv. induction ls as [|u ls IH]; simpl.
  - exists v. split; [now left | exact Hv].
  - destruct (PrimFloat.eqb v u) eqn:E.
    + exists u. split; [now left | exact E].
    + destruct (PrimFloat.ltb v u).
      * exists v. split; [now left | exact Hv].
      * destruct IH as (w & Hw & Hvw). exists w. split; [now right | exact Hvw].
Qed.

(** Every level of a column is one of its values, not NaN. *)
Lemma levels_sound (s : Series) (v : float) :
  In v (levels s) -> In v s /\ F64.notna v = true.
Proof.
  unfold levels. intros Hin.
  assert (Hd : In v (dropna s)).
  { induction (dropna s) as [|x l IH]; simpl in Hin; [contradiction|].
    apply insert_level_In in Hin as [->|Hin]; [now left | right; auto]. }
  now apply filter_In in Hd.
Qed.

(** Every value of a column that is not NaN has its level. *)
Lemma levels_complete (s : Series) (x : float) :
  In x s -> F64.notna x = true ->
  exists v, In v (levels s) /\ PrimFloat.eqb x v = true.
Proof.
  intros Hin Hx. unfold levels.
  assert (Hd : In x (dropna s)) by (apply filter_In; auto).
  induction (dropna s) as [|y l IH]; simpl; [contradiction|].
  destruct Hd as [->|Hd].
  - now apply insert_level_has.
  - destruct (IH Hd) as (v & Hv & Hxv).
    exists v. split; [now apply insert_level_keeps | exact Hxv].
Qed.

Lemma getitem_select (names : list string) (df d : DataFrame) :
  select names df = Ok d ->
  forall n, In n names -> getitem n d = getitem n df.
Proof.
  unfold select. revert d. induction names as [|a names IH]; intros d Hd n;
    [intros []|].
  cbn [mapM] in Hd. destruct (getitem a df) as [c|e] eqn:Ha;
    [|discriminate Hd].
  cbn [Py.bind] in Hd.
  destruct (mapM (fun n0 => c0 <- getitem n0 df;; Ok (Col n0, c0)) names)
    as [d'|e] eqn:Hrest; [|discriminate Hd].
  injection Hd as <-. intros Hin. simpl.
  destruct (String.eqb a n) eqn:Han.
  - apply String.eqb_eq in Han. subst a. now rewrite Ha.
  - apply String.eqb_neq in Han.
    destruct Hin as [Heq|Hin]; [congruence|]. now apply IH.
Qed.

Lemma getitem_app (name : string) (d d' : DataFrame) (c : Series) :
  getitem name d = Ok c -> getitem name (d ++ d') = Ok c.
Proof.
  induction d as [|[l c0] d IH]; simpl; [discriminate|].
  destruct (label_eqb l (Col name)); auto.
Qed.

Lemma select_all_length (n : nat) (names : list string) (df d : DataFrame) :
  all_length n df -> select names df = Ok d -> all_length n d.
Proof.
  intros Hall. unfold select. revert d.
  induction names as [|a names IH]; intros d Hd; cbn [mapM] in Hd.
  - injection Hd as <-. constructor.
  - destruct (getitem a df) as [c|e] eqn:Ha; [|discriminate Hd].
    cbn [Py.bind] in Hd.
    destruct (mapM (fun n0 => c0 <- getitem n0 df;; Ok (Col n0, c0)) names)
      as [d'|e] eqn:Hrest; [|discriminate Hd].
    injection Hd as <-. constructor; [|now apply IH].
    simpl. eapply getitem_length; eassumption.
Qed.

Lemma get_dummies_all_length (prefix : string) (s : Series) :
  all_length (length s) (get_dummies prefix s).
Proof.
  unfold all_length, get_dummies. apply Forall_forall. intros lc Hin.
  apply in_map_iff in Hin as (v & <- & _). simpl. apply length_map.
Qed.

(** X5: the one-hot table of the feature builder. Its columns are the
    continuous fields, the binary fields, and for [adequacy], [pldel]
    and [resstatb] in turn one indicator per level; the continuous and
    binary columns are those of the table; every column has one entry
    per record. The levels of a field are the values it takes, NaN
    apart: each level occurs in the column and each value of the column
    has its level. *)
Theorem one_hot_table_layout (n : nat) (df df_new : DataFrame) :
  all_length n df ->
  build_features df = Ok df_new ->
  exists a p r,
    getitem "adequacy" df = Ok a /\ getitem "pldel" df = Ok p /\
    getitem "resstatb" df = Ok r /\
    columns df_new =
      map Col con_list ++ map Col bin_list
      ++ map (Indicator "adequacy") (levels a)
      ++ map (Indicator "pldel") (levels p)
      ++ map (Indicator "resstatb") (levels r) /\
    length df_new =
      27 + length (levels a) + length (levels p) + length (levels r) /\
    all_length n df_new /\
    (forall name, In name (con_list ++ bin_list) ->
       getitem name df_new = getitem name df) /\
    (forall s v, In s [a; p; r] -> In v (levels s) ->
       In v s /\ F64.notna v = true) /\
    (forall s x, In s [a; p; r] -> In x s -> F64.notna x = true ->
       exists v, In v (levels s) /\ PrimFloat.eqb x v = true).
Proof.
  intros Hall Hb.
  destruct (build_features_columns _ _ Hb) as (a & p & r & Ha & Hp & Hr & Hc).
  exists a, p, r.
  split; [exact Ha|]. split; [exact Hp|]. split; [exact Hr|].
  split; [exact Hc|].
  split.
  { unfold columns in Hc. apply (f_equal (@length label)) in Hc.
    rewrite length_map in Hc. rewrite Hc.
    rewrite !length_app, !length_map. simpl. lia. }
  unfold build_features in Hb.
  destruct (select (con_list ++ bin_list) df) as [d|e] eqn:Hs;
    [|discriminate Hb].
  cbn [Py.bind] in Hb. unfold cat_list, other_list2 in Hb.
  cbn [for_each] in Hb. unfold add_dummies, concat_columns in Hb.
  rewrite Ha, Hp, Hr in Hb. cbn [Py.bind] in Hb. injection Hb as <-.
  split.
  { unfold all_length. rewrite !Forall_app. repeat split.
    - eapply select_all_length; eassumption.
    - rewrite <- (getitem_length _ _ _ _ Hall Ha).
      apply get_dummies_all_length.
    - rewrite <- (getitem_length _ _ _ _ Hall Hp).
      apply get_dummies_all_length.
    - rewrite <- (getitem_length _ _ _ _ Hall Hr).
      apply get_dummies_all_length. }
  split.
  { intros name Hname.
    destruct (select_present _ _ _ Hs name Hname) as [c Hcol].
    rewrite Hcol. rewrite <- !app_assoc. apply getitem_app.
    rewrite (getitem_select _ _ _ Hs name Hname). exact Hcol. }
  split.
  - intros s v _. apply levels_sound.
  - intros s x _. apply levels_complete.
Qed.

(** The one-hot table of the fixture. *)
Definition fixture_one_hot : DataFrame :=
  match build_features Fixture.imputed with
  | Ok df_new => df_new
  | Raise _ => []
  end.

Lemma fixture_imputed_all_length : all_length 4 Fixture.imputed.
Proof. vm_compute. repeat constructor. Qed.

Lemma one_hot_table_layout_witness :
  all_length 4 fixture_one_hot /\
  (forall name, In name (con_list ++ bin_list) ->
     getitem name fixture_one_hot = getitem name Fixture.imputed).
Proof.
  destruct (one_hot_table_layout 4 Fixture.imputed fixture_one_hot
              fixture_imputed_all_length eq_refl)
    as (a & p & r & _ & _ & _ & _ & _ & Hall & Hsame & _).
  split; assumption.
Defined.

(** ** What the imputer fills and with what (lines 97-101) *)

Lemma notna_false_eqb (x y : float) :
  F64.notna x = false -> PrimFloat.eqb x y = false.
Proof.
  intros Hx. destruct (PrimFloat.eqb x y) eqn:E; [|reflexivity].
  apply eqb_notna in E. congruence.
Qed.

Lemma Forall2_same {A : Type} (R : A -> A -> Prop) (l : list A) :
  (forall a, R a a) -> Forall2 R l l.
Proof. intros HR. induction l; constructor; auto. Qed.

Lemma Forall2_map_right {A B : Type} (R : A -> B -> Prop) (f : A -> B)
  (l : list A) :
  (forall a, In a l -> R a (f a)) -> Forall2 R l (map f l).
Proof.
  induction l as [|a l IH]; simpl; intros HR; constructor.
  - apply HR. now left.
  - apply IH. intros b Hb. apply HR. now right.
Qed.

(** X6: the imputer fills sentinels only. A NaN entry, of whatever
    column, is NaN after the imputation, and no column changes its
    length. *)
Theorem imputer_keeps_nan (df df' : DataFrame) (name : string) (s : Series) :
  impute df = Ok df' ->
  getitem name df = Ok s ->
  exists s',
    getitem name df' = Ok s' /\
    length s' = length s /\
    Forall2 (fun x x' => F64.notna x = false -> x' = x) s s'.
Proof.
  intros Hrun Hg.
  destruct (impute_columns _ _ Hrun) as (Hmed & Hoth & Hrest & _).
  destruct (in_dec string_dec name medrisk_list) as [Hm|Hm].
  { destruct (Hmed _ Hm) as (s0 & s' & Hg0 & Himp & Hg').
    assert (s0 = s) by congruence. subst s0.
    exists s'. split; [exact Hg'|].
    split; [now apply impute_mode_length|].
    apply impute_mode_entries in Himp.
    eapply Forall2_impl; [|exact Himp]. simpl. intros x x' Hx Hna.
    destruct (in_8_9 x) eqn:E; [|exact Hx].
    apply in_8_9_notna in E. congruence. }
  destruct (in_dec string_dec name other_list) as [Ho|Ho].
  { destruct (Hoth _ Ho) as (s0 & Hg0 & Hg').
    assert (s0 = s) by congruence. subst s0.
    exists (impute_mean s). split; [exact Hg'|].
    unfold impute_mean. split; [apply length_map|].
    apply Forall2_map_right. intros x _ Hna.
    now rewrite (notna_false_eqb x 99 Hna). }
  exists s. split.
  - rewrite <- Hg. apply Hrest. intros Hin. apply in_app_or in Hin. tauto.
  - split; [reflexivity|]. now apply Forall2_same.
Qed.

Lemma imputer_keeps_nan_witness :
  exists s',
    getitem "drink" Fixture.imputed = Ok s' /\
    length s' = 4 /\
    Forall2 (fun x x' => F64.notna x = false -> x' = x)
            [0; 99; 2; 4]%float s'.
Proof.
  apply (imputer_keeps_nan Fixture.table Fixture.imputed "drink"
           [0; 99; 2; 4]%float); reflexivity.
Defined.

Lemma mean_of_sentinels (s : Series) :
  Forall (fun x => PrimFloat.eqb x 99 = true \/ F64.notna x = false) s ->
  dropna (filter (fun v => negb (PrimFloat.eqb v 99)) s) = [].
Proof.
  induction 1 as [|x s Hx _ IH]; simpl; [reflexivity|].
  destruct (PrimFloat.eqb x 99) eqn:E; simpl; [exact IH|].
  destruct Hx as [Hx|Hx]; [discriminate|].
  unfold dropna in *. simpl. now rewrite Hx.
Qed.

(** X7: a continuous column that holds nothing but 99s (and NaNs) is
    all NaN after the imputation: the mean of no value is NaN, and it
    replaces every 99. *)
Theorem all_missing_column_becomes_nan (df df' : DataFrame) (feat : string)
  (s : Series) :
  impute df = Ok df' ->
  In feat other_list ->
  getitem feat df = Ok s ->
  Forall (fun x => PrimFloat.eqb x 99 = true \/ F64.notna x = false) s ->
  exists s',
    getitem feat df' = Ok s' /\
    length s' = length s /\
    Forall (fun x => F64.notna x = false) s'.
Proof.
  intros Hrun Hfeat Hg Hall.
  destruct (impute_columns _ _ Hrun) as (_ & Hoth & _ & _).
  destruct (Hoth _ Hfeat) as (s0 & Hg0 & Hg').
  assert (s0 = s) by congruence. subst s0.
  exists (impute_mean s). split; [exact Hg'|].
  unfold impute_mean. split; [apply length_map|].
  unfold Pd.mean. rewrite (mean_of_sentinels s Hall).
  apply Forall_forall. intros v Hv.
  apply in_map_iff in Hv as (x & <- & Hx).
  rewrite Forall_forall in Hall.
  destruct (PrimFloat.eqb x 99) eqn:E; [reflexivity|].
  destruct (Hall x Hx) as [H99|Hna]; [congruence | exact Hna].
Qed.

(** The fixture with every [cigar] entry missing. *)
Definition fixture_no_cigar : DataFrame :=
  setitem "cigar" [99; 99; 99; 99]%float Fixture.table.

Lemma all_missing_column_becomes_nan_witness :
  exists df' s',
    impute fixture_no_cigar = Ok df' /\
    getitem "cigar" df' = Ok s' /\
    length s' = 4 /\
    Forall (fun x => F64.notna x = false) s'.
Proof.
  eexists. 
  assert (Hrun : impute fixture_no_cigar
                 = Ok (match impute fixture_no_cigar with
                       | Ok d => d | Raise _ => [] end))
    by (vm_compute; reflexivity).
  destruct (all_missing_column_becomes_nan _ _ "cigar"
              [99; 99; 99; 99]%float Hrun)
    as (s' & Hg & Hlen & Hnan).
  - simpl. tauto.
  - reflexivity.
  - repeat constructor.
  - exists s'. split; [exact Hrun|]. repeat split; assumption.
Defined.

(** X8: the value the imputer writes over an 8 or a 9 is no new code:
    it is an entry of the original column, not NaN, that no other entry
    of the column outnumbers; so every entry of an imputed medical-risk
    column is a value the column held before. *)
Theorem mode_imputation_reuses_values (df df' : DataFrame) (feat : string)
  (s : Series) :
  impute df = Ok df' ->
  In feat medrisk_list ->
  getitem feat df = Ok s ->
  exists s',
    getitem feat df' = Ok s' /\
    Forall2 (fun x x' =>
               in_8_9 x = true ->
               In x' s /\ F64.notna x' = true /\
               forall v, In v s -> F64.notna v = true ->
                         count v s <= count x' s) s s' /\
    Forall (fun x' => In x' s) s'.
Proof.
  intros Hrun Hfeat Hg.
  destruct (impute_columns _ _ Hrun) as (Hmed & _ & _ & _).
  destruct (Hmed _ Hfeat) as (s0 & s' & Hg0 & Himp & Hg').
  assert (s0 = s) by congruence. subst s0.
  exists s'. split; [exact Hg'|].
  apply impute_mode_entries in Himp. split.
  - eapply Forall2_impl; [|exact Himp]. simpl. intros x x' Hx H89.
    rewrite H89 in Hx. now apply mode0_is_mode.
  - eapply Forall2_right; [exact Himp|]. simpl. intros x x' Hin Hx.
    destruct (in_8_9 x).
    + now apply mode0_is_mode in Hx.
    + now subst x'.
Qed.

Lemma mode_imputation_reuses_values_witness :
  exists s',
    getitem "diabetes" Fixture.imputed = Ok s' /\
    Forall (fun x' => In x' [1; 8; 1; 9]%float) s'.
Proof.
  destruct (mode_imputation_reuses_values Fixture.table Fixture.imputed
              "diabetes" [1; 8; 1; 9]%float)
    as (s' & Hg & _ & Hin).
  - reflexivity.
  - simpl. tauto.
  - reflexivity.
  - exists s'. split; assumption.
Defined.

(** ** What the returned arrays hold (lines 109-152) *)

Lemma division_test_index_in_range (train_idx test_idx : list nat)
  (no k : nat) :
  Permutation (train_idx ++ test_idx) (seq 0 no) ->
  k < length test_idx -> nth k test_idx 0 < no.
Proof.
  intros Hperm Hk.
  assert (Hin : In (nth k test_idx 0) (seq 0 no)).
  { eapply Permutation_in; [exact Hperm|].
    apply in_or_app. right. now apply nth_In. }
  apply in_seq in Hin. lia.
Qed.

(** A row of [potential_y] is the two binarized labels of its record. *)
(** The rows a list of record indices picks carry their own outcomes. *)
Lemma taken_rows_hold_outcomes (df : DataFrame) (s : synthesized)
  (c0 c1 : Series) (j0 j1 : nat) (idx : list nat) (k : nat) :
  synthesized_ok df s ->
  s_potential_y s =
    map (fun i => [binarize (nth i c0 PrimFloat.nan);
                   binarize (nth i c1 PrimFloat.nan)])
        (seq 0 (nrows df)) ->
  (forall i, nth j0 (row i df) PrimFloat.nan = nth i c0 PrimFloat.nan) ->
  (forall i, nth j1 (row i df) PrimFloat.nan = nth i c1 PrimFloat.nan) ->
  k < length idx -> nth k idx 0 < nrows df ->
  nth k (Np.take [] idx (s_potential_y s)) [] =
    [binarize (nth j0 (nth k (Np.take [] idx (s_x s)) []) PrimFloat.nan);
     binarize (nth j1 (nth k (Np.take [] idx (s_x s)) []) PrimFloat.nan)].
Proof.
  intros Hok Hpy H0 H1 Hk Hi.
  rewrite !nth_take by exact Hk.
  rewrite (ok_x _ _ Hok), (nth_values _ _ Hi), H0, H1.
  now apply (nth_potential_y df).
Qed.

(** X9: the returned features give the potential outcomes away. There
    are two positions [j0] and [j1], those of the outcome columns in the
    file, such that for every returned row, of the training and of the
    test arrays, the row of potential outcomes next to it is the pair of
    the binarized entries of the feature row at [j0] and [j1]. *)
Theorem features_determine_potential_outcomes {E : Externals}
  (ES : ExternalsSpec E) (fn_csv : string) (train_rate : float)
  (fs : FileSystem) (g g' : rng) (out : outputs) :
  preprocess fn_csv train_rate fs g = Ok (out, g') ->
  exists j0 j1,
    length (train_potential_y out) = length (train_x out) /\
    length (test_potential_y out) = length (test_x out) /\
    (forall k, k < length (train_x out) ->
       nth k (train_potential_y out) [] =
         [binarize (nth j0 (nth k (train_x out) []) PrimFloat.nan);
          binarize (nth j1 (nth k (train_x out) []) PrimFloat.nan)]) /\
    (forall k, k < length (test_x out) ->
       nth k (test_potential_y out) [] =
         [binarize (nth j0 (nth k (test_x out) []) PrimFloat.nan);
          binarize (nth j1 (nth k (test_x out) []) PrimFloat.nan)]).
Proof.
  intros Hrun.
  destruct (preprocess_inv _ _ _ _ _ _ Hrun) as (s & g1 & Hp & Hd).
  destruct (prepare_inv ES _ _ _ _ _ Hp)
    as (df0 & df & df_new & _ & _ & _ & _ & _ & Hok).
  destruct (divide_inv ES _ _ _ _ _ Hd)
    as (train_idx & test_idx & _ & Hperm & ->).
  destruct (ok_potential_y _ _ Hok) as (c0 & c1 & H0 & H1 & Hpy).
  destruct (getitem_get_loc _ _ _ H0) as (j0 & _ & _ & Hrow0).
  destruct (getitem_get_loc _ _ _ H1) as (j1 & _ & _ & Hrow1).
  rewrite (ok_no _ _ Hok) in Hperm.
  exists j0, j1. simpl. rewrite !length_take.
  split; [reflexivity|]. split; [reflexivity|]. split.
  - intros k Hk.
    eapply taken_rows_hold_outcomes; eauto.
    eapply division_index_in_range; eassumption.
  - intros k Hk.
    eapply taken_rows_hold_outcomes; eauto.
    eapply division_test_index_in_range; eassumption.
Qed.

Lemma features_determine_potential_outcomes_witness :
  exists out g' j0 j1,
    preprocess (E := Fixture.double) Fixture.path 0.8 Fixture.disk O
      = Ok (out, g') /\
    forall k, k < length (test_x out) ->
      nth k (test_potential_y out) [] =
        [binarize (nth j0 (nth k (test_x out) []) PrimFloat.nan);
         binarize (nth j1 (nth k (test_x out) []) PrimFloat.nan)].
Proof.
  eexists. eexists.
  destruct (features_determine_potential_outcomes double_spec Fixture.path
              0.8 Fixture.disk O _ _ eq_refl)
    as (j0 & j1 & _ & _ & _ & Htest).
  exists j0, j1. split; [reflexivity | exact Htest].
Defined.

Lemma observed_bit (t : Z) (py : list Z) :
  bit t -> Forall bit py -> bit (observed t py).
Proof.
  intros Ht Hpy. rewrite (observed_selects _ _ Ht).
  destruct (nth_in_or_default (Z.to_nat t) py 0%Z) as [Hin| ->].
  - rewrite Forall_forall in Hpy. now apply Hpy.
  - now left.
Qed.

Lemma take_bits (idx : list nat) (a : list Z) :
  Forall bit a -> Forall bit (Np.take 0%Z idx a).
Proof.
  intros Ha. unfold Np.take. apply Forall_forall. intros v Hv.
  apply in_map_iff in Hv as (i & <- & _).
  destruct (nth_in_or_default i a 0%Z) as [Hin| ->].
  - rewrite Forall_forall in Ha. now apply Ha.
  - now left.
Qed.

Lemma take_rows_bits (idx : list nat) (a : list (list Z)) :
  Forall (Forall bit) a -> Forall (Forall bit) (Np.take [] idx a).
Proof.
  intros Ha. unfold Np.take. apply Forall_forall. intros v Hv.
  apply in_map_iff in Hv as (i & <- & _).
  destruct (nth_in_or_default i a []) as [Hin| ->].
  - rewrite Forall_forall in Ha. now apply Ha.
  - constructor.
Qed.

(** X10: every number [preprocess] returns apart from the features is 0
    or 1: the treatments, the observed outcomes, and the potential
    outcomes of the training and of the test records. *)
Theorem returned_labels_are_binary {E : Externals} (ES : ExternalsSpec E)
  (fn_csv : string) (train_rate : float) (fs : FileSystem) (g g' : rng)
  (out : outputs) :
  preprocess fn_csv train_rate fs g = Ok (out, g') ->
  Forall bit (train_t out) /\
  Forall bit (train_y out) /\
  Forall (Forall bit) (train_potential_y out) /\
  Forall (Forall bit) (test_potential_y out).
Proof.
  intros Hrun.
  destruct (preprocess_inv _ _ _ _ _ _ Hrun) as (s & g1 & Hp & Hd).
  destruct (prepare_inv ES _ _ _ _ _ Hp)
    as (df0 & df & df_new & _ & _ & _ & _ & _ & Hok).
  destruct (divide_inv ES _ _ _ _ _ Hd)
    as (train_idx & test_idx & _ & _ & ->).
  pose proof (ok_t_bits _ _ Hok) as Ht.
  assert (Hpy : Forall (Forall bit) (s_potential_y s)).
  { destruct (ok_potential_y _ _ Hok) as (c0 & c1 & _ & _ & ->).
    apply Forall_forall. intros r Hr.
    apply in_map_iff in Hr as (i & <- & _).
    constructor; [apply binarize_bit|].
    constructor; [apply binarize_bit | constructor]. }
  assert (Hy : Forall bit (s_y s)).
  { rewrite (ok_y _ _ Hok). unfold observe.
    apply Forall_forall. intros v Hv.
    apply in_map_iff in Hv as ([t py] & <- & Hin).
    rewrite Forall_forall in Ht, Hpy.
    apply (observed_bit t py).
    - apply Ht. eapply in_combine_l. exact Hin.
    - apply Hpy. eapply in_combine_r. exact Hin. }
  simpl. repeat split.
  - now apply take_bits.
  - now apply take_bits.
  - now apply take_rows_bits.
  - now apply take_rows_bits.
Qed.

Lemma returned_labels_are_binary_witness :
  exists out g',
    preprocess (E := Fixture.double) Fixture.path 0.8 Fixture.disk O
      = Ok (out, g') /\
    Forall bit (train_y out).
Proof.
  eexists. eexists. split; [vm_compute; reflexivity|].
  exact (proj1 (proj2 (returned_labels_are_binary double_spec Fixture.path
                         0.8 Fixture.disk O _ _ eq_refl))).
Defined.

(** ** Rates outside the unit interval (lines 143-144) *)

(** [int(nan * no)] raises [ValueError]. *)
Lemma train_size_nan (no : nat) :
  train_size PrimFloat.nan no = Raise ValueError.
Proof.
  unfold train_size, F64.to_int. rewrite FloatAxioms.mul_spec.
  change (Prim2SF PrimFloat.nan) with S754_nan. reflexivity.
Qed.

(** [int(inf * no)] raises [OverflowError] when there is a record, and
    [ValueError] when there is none ([inf * 0.0] is NaN). *)
Lemma train_size_infinite (rate : float) (sign : bool) (no : nat) :
  Prim2SF rate = S754_infinity sign ->
  (Z.of_nat no < 2 ^ 53)%Z ->
  train_size rate no =
    Raise (if Nat.eqb no 0 then ValueError else OverflowError).
Proof.
  intros Hrate Hno. unfold train_size, F64.to_int.
  rewrite FloatAxioms.mul_spec, Hrate.
  destruct no as [|no].
  - change (Prim2SF (F64.of_nat 0)) with (S754_zero false). reflexivity.
  - destruct (of_nat_exact (S no) Hno) as [[Hz _]|(m & e & -> & _)];
      [discriminate Hz | reflexivity].
Qed.

Lemma preprocess_of_prepare {E : Externals} (fn_csv : string)
  (train_rate : float) (fs : FileSystem) (g g1 : rng) (s : synthesized) :
  prepare fn_csv fs g = Ok (s, g1) ->
  preprocess fn_csv train_rate fs g = divide train_rate s g1.
Proof. intros Hp. unfold preprocess. now rewrite Hp. Qed.

Lemma divide_raises {E : Externals} (train_rate : float) (s : synthesized)
  (g : rng) (e : exn) :
  train_size train_rate (s_no s) = Raise e ->
  divide train_rate s g = Raise e.
Proof.
  intros He. unfold divide, train_test_division.
  destruct (permutation (s_no s) g) as [idx g']. now rewrite He.
Qed.

(** X11: a rate that is not a finite number is refused only at the
    division, after every other stage has run: on a table that has a
    record and that reaches the division, [preprocess] raises
    [ValueError] for a NaN rate and [OverflowError] for an infinite
    one. *)
Theorem non_finite_rate_raises {E : Externals} (fn_csv : string)
  (fs : FileSystem) (g g1 : rng) (s : synthesized) :
  prepare fn_csv fs g = Ok (s, g1) ->
  0 < s_no s ->
  (Z.of_nat (s_no s) < 2 ^ 53)%Z ->
  preprocess fn_csv PrimFloat.nan fs g = Raise ValueError /\
  preprocess fn_csv PrimFloat.infinity fs g = Raise OverflowError /\
  preprocess fn_csv PrimFloat.neg_infinity fs g = Raise OverflowError.
Proof.
  intros Hp Hrec Hno. rewrite !(preprocess_of_prepare _ _ _ _ _ _ Hp).
  assert (Hne : Nat.eqb (s_no s) 0 = false) by (apply Nat.eqb_neq; lia).
  split; [apply divide_raises, train_size_nan|].
  split; apply divide_raises.
  - rewrite (train_size_infinite _ false) by (reflexivity || assumption).
    now rewrite Hne.
  - rewrite (train_size_infinite _ true) by (reflexivity || assumption).
    now rewrite Hne.
Qed.

Lemma non_finite_rate_raises_witness :
  preprocess (E := Fixture.double) Fixture.path PrimFloat.nan Fixture.disk O
    = Raise ValueError /\
  preprocess (E := Fixture.double) Fixture.path PrimFloat.infinity
    Fixture.disk O = Raise OverflowError.
Proof.
  assert (Hp : exists s g1,
            prepare (E := Fixture.double) Fixture.path Fixture.disk O
              = Ok (s, g1) /\ s_no s = 4)
    by (eexists; eexists; split; vm_compute; reflexivity).
  destruct Hp as (s & g1 & Hp & Hno).
  destruct (non_finite_rate_raises (E := Fixture.double) Fixture.path
              Fixture.disk O g1 s Hp) as (Hnan & Hinf & _).
  - rewrite Hno. lia.
  - rewrite Hno. reflexivity.
  - split; [exact Hnan | exact Hinf].
Defined.

Lemma length_slice_from {A : Type} (k : Z) (a : list A) :
  length (Py.slice_from k a) = length a - Py.slice_bound k (length a).
Proof. unfold Py.slice_from. apply length_skipn. Qed.

(** X12: a rate outside [0, 1] is not refused; the two slices clamp it.
    When [int(train_rate * no)] is [no] or more, every record goes to the
    training arrays and the test arrays are empty; when it is negative,
    [k] say, the slice [idx[:k]] counts from the end: the last [-k]
    records of the permutation are the test set, and when [-k] is [no]
    or more the training arrays are empty. *)
Theorem rate_outside_unit_interval {E : Externals} (ES : ExternalsSpec E)
  (train_rate : float) (s : synthesized) (g : rng) (k : Z) :
  train_size train_rate (s_no s) = Ok k ->
  exists out g',
    divide train_rate s g = Ok (out, g') /\
    ((Z.of_nat (s_no s) <= k)%Z ->
       test_x out = [] /\ test_potential_y out = [] /\
       length (train_x out) = s_no s) /\
    ((- Z.of_nat (s_no s) <= k < 0)%Z ->
       Z.of_nat (length (train_x out)) = (Z.of_nat (s_no s) + k)%Z /\
       Z.of_nat (length (test_x out)) = (- k)%Z) /\
    ((k <= - Z.of_nat (s_no s))%Z ->
       train_x out = [] /\ train_t out = [] /\ train_y out = [] /\
       train_potential_y out = [] /\
       length (test_x out) = s_no s).
Proof.
  intros Hk. unfold divide, train_test_division.
  pose proof (permutation_perm (s_no s) g) as Hperm.
  destruct (permutation (s_no s) g) as [idx g1]. simpl in Hperm.
  assert (Hlen : length idx = s_no s).
  { rewrite (Permutation_length Hperm). apply length_seq. }
  rewrite Hk. cbn [Py.bind]. eexists _, g1. split; [reflexivity|].
  cbn [train_x train_t train_y train_potential_y test_x test_potential_y].
  rewrite !length_take, length_slice_to, length_slice_from, Hlen.
  unfold Py.slice_to, Py.slice_from. rewrite Hlen.
  split; [|split].
  - intros Hbig.
    assert (Hb : Py.slice_bound k (s_no s) = s_no s).
    { unfold Py.slice_bound.
      destruct (k <? 0)%Z eqn:Ek; [apply Z.ltb_lt in Ek; lia | lia]. }
    rewrite Hb. rewrite skipn_all2 by lia. auto.
  - intros Hneg.
    assert (Hb : Z.of_nat (Py.slice_bound k (s_no s))
                 = (Z.of_nat (s_no s) + k)%Z).
    { unfold Py.slice_bound.
      destruct (k <? 0)%Z eqn:Ek; [lia | apply Z.ltb_ge in Ek; lia]. }
    split; lia.
  - intros Hsmall.
    assert (Hb : Py.slice_bound k (s_no s) = 0).
    { unfold Py.slice_bound.
      destruct (k <? 0)%Z eqn:Ek; [lia | apply Z.ltb_ge in Ek; lia]. }
    rewrite Hb. simpl. repeat split; lia.
Qed.

Lemma rate_outside_unit_interval_witness :
  exists out g',
    divide (E := Fixture.double) (-0.3) (Fixture.synth 4) O = Ok (out, g') /\
    Z.of_nat (length (train_x out)) = 3%Z /\
    Z.of_nat (length (test_x out)) = 1%Z.
Proof.
  destruct (rate_outside_unit_interval double_spec (-0.3) (Fixture.synth 4)
              O (-1) eq_refl)
    as (out & g' & Hd & _ & Hneg & _).
  exists out, g'. split; [exact Hd|].
  apply Hneg. simpl. lia.
Defined.

(** ** Nothing is lost in the division (lines 142-152) *)

Lemma take_app {B : Type} (d : B) (idx idx' : list nat) (a : list B) :
  Np.take d (idx ++ idx') a = Np.take d idx a ++ Np.take d idx' a.
Proof. unfold Np.take. apply map_app. Qed.

(** X14: the division loses and repeats nothing: the training rows
    followed by the test rows are the rows of the table in another
    order, and so are the potential outcomes of the two parts; the four
    training arrays have one length. *)
Theorem division_keeps_every_record {E : Externals} (ES : ExternalsSpec E)
  (fn_csv : string) (train_rate : float) (fs : FileSystem) (g g' : rng)
  (out : outputs) :
  preprocess fn_csv train_rate fs g = Ok (out, g') ->
  exists s g1,
    prepare fn_csv fs g = Ok (s, g1) /\
    Permutation (train_x out ++ test_x out) (s_x s) /\
    Permutation (train_potential_y out ++ test_potential_y out)
                (s_potential_y s) /\
    length (train_t out) = length (train_x out) /\
    length (train_y out) = length (train_x out) /\
    length (train_potential_y out) = length (train_x out).
Proof.
  intros Hrun.
  destruct (preprocess_inv _ _ _ _ _ _ Hrun) as (s & g1 & Hp & Hd).
  destruct (prepare_inv ES _ _ _ _ _ Hp)
    as (df0 & df & df_new & _ & _ & _ & _ & _ & Hok).
  destruct (synthesized_lengths _ _ Hok) as (Hx & _ & _ & Hpy).
  destruct (divide_inv ES _ _ _ _ _ Hd)
    as (train_idx & test_idx & _ & Hperm & ->).
  exists s, g1. split; [exact Hp|]. simpl.
  rewrite <- !take_app, !length_take.
  repeat split; apply take_permutation; congruence.
Qed.

Lemma division_keeps_every_record_witness :
  exists out g',
    preprocess (E := Fixture.double) Fixture.path 0.8 Fixture.disk O
      = Ok (out, g') /\
    Permutation (train_x out ++ test_x out) (values Fixture.imputed).
Proof.
  eexists. eexists. split; [vm_compute; reflexivity|].
  destruct (division_keeps_every_record double_spec Fixture.path 0.8
              Fixture.disk O _ _ eq_refl)
    as (s & g1 & Hp & Hperm & _).
  vm_compute in Hp. injection Hp as <- _. exact Hperm.
Defined.
